(** * DSM visualisation ([mne_rsa/viz.py]): a shallow embedding

    The module draws dissimilarity matrices (DSMs) with matplotlib: a plain
    grid ([plot_dsms]), one topography ([_plot_dsms_topo]) and one topography
    per time window ([plot_dsms_topos]).  The functions of [viz.py] are
    embedded below as state-passing functions over a model of the pyplot
    state; Python exceptions are values of type [exn].

    numpy, scipy, matplotlib and MNE are libraries the module calls; they are
    modelled by the small executable definitions of the first three
    sections, each with a comment naming the library behaviour it stands
    for.  Array entries are float64 in Python; here they are exact rationals
    extended with NaN, and arithmetic on them is exact. *)

From stdpp Require Import gmap list strings pretty.
From Stdlib Require Import QArith.

Local Open Scope Z_scope.
Local Open Scope nat_scope.

(** ** Python exceptions and results *)

Inductive exn : Type :=
  | ValueError (msg : string)
  | TypeError (msg : string)
  | IndexError (msg : string)
  | AttributeError (msg : string)
  | UnboundLocalError (msg : string)
  | ZeroDivisionError (msg : string).

Inductive result (A : Type) : Type :=
  | Ok (a : A)
  | Raise (e : exn).
Arguments Ok {A} a.
Arguments Raise {A} e.

Definition is_TypeError {A} (r : result A) : bool :=
  match r with Raise (TypeError _) => true | _ => false end.

(** ** Python values (the [time_windows] argument is dynamically typed) *)

#[warnings="-register-all"]
Inductive pyval : Type :=
  | PNone
  | PInt (z : Z)
  | PStr (s : string)
  | PList (l : list pyval)
  | PTuple (l : list pyval).

Definition join (sep : string) (l : list string) : string :=
  match l with
  | [] => EmptyString
  | x :: r => fold_left (fun acc y => acc +:+ sep +:+ y) r x
  end.

(** [repr(v)] and [str(v)], as an f-string renders a value. *)
Fixpoint py_repr (v : pyval) : string :=
  match v with
  | PNone => "None"
  | PInt z => pretty z
  | PStr s => "'" +:+ s +:+ "'"
  | PList l => "[" +:+ join ", " (map py_repr l) +:+ "]"
  | PTuple [x] => "(" +:+ py_repr x +:+ ",)"
  | PTuple l => "(" +:+ join ", " (map py_repr l) +:+ ")"
  end.

Definition py_str (v : pyval) : string :=
  match v with
  | PStr s => s
  | _ => py_repr v
  end.

(** [isinstance(v, list)] *)
Definition isinstance_list (v : pyval) : bool :=
  match v with PList _ => true | _ => false end.

Definition shape_repr (s : list nat) : string :=
  py_repr (PTuple (map (fun n => PInt (Z.of_nat n)) s)).

(** ** numpy arrays *)

Inductive fval : Type :=
  | Fin (q : Q)
  | NaN.

Definition fadd (a b : fval) : fval :=
  match a, b with
  | Fin x, Fin y => Fin (Qred (x + y))
  | _, _ => NaN
  end.

(** [a != b] on floats: NaN differs from everything. *)
Definition fneq (a b : fval) : bool :=
  match a, b with
  | Fin x, Fin y => negb (Qeq_bool x y)
  | _, _ => true
  end.

Definition fsum (l : list fval) : fval := fold_left fadd l (Fin 0).

(** The mean of a list of samples; numpy gives NaN for no samples.  The
    mean is taken in exact arithmetic: it is the float64 that numpy returns
    where the float64 sum and quotient are exact (see [exact_mean]), and
    statements about the value of a mean are made for such samples. *)
Definition fmean (l : list fval) : fval :=
  match l, fsum l with
  | _ :: _, Fin s => Fin (Qred (s / inject_Z (Z.of_nat (length l))))
  | _, _ => NaN
  end.

(** An n-dimensional array: its shape and its entries in row-major order. *)
Record ndarray : Type := mk_ndarray {
  shape : list nat;
  data : list fval
}.

Definition size_of (s : list nat) : nat := fold_right Nat.mul 1 s.

Definition ndim (a : ndarray) : nat := length (shape a).

Definition at_ (a : ndarray) (i : nat) : fval := nth i (data a) NaN.


Definition get2 (a : ndarray) (s k : nat) : fval :=
  match shape a with
  | [_; nk] => at_ a (s * nk + k)
  | _ => NaN
  end.

(** [a[i]]: indexing the first axis. *)
Definition getitem (a : ndarray) (i : nat) : result ndarray :=
  match shape a with
  | [] => Raise (IndexError "too many indices for array")
  | n :: rest =>
      if i <? n then
        Ok {| shape := rest;
              data := take (size_of rest) (drop (i * size_of rest) (data a)) |}
      else
        Raise (IndexError ("index " +:+ pretty i +:+
               " is out of bounds for axis 0 with size " +:+ pretty n))
  end.

(** One bound of a slice [a:b] over an axis of length [n]: negative bounds
    count from the end, and bounds are clipped to the axis. *)
Definition slice_bound (n : nat) (v : pyval) (dflt : nat) : result nat :=
  match v with
  | PNone => Ok dflt
  | PInt z =>
      Ok (Z.to_nat (if (z <? 0)%Z then Z.max (z + Z.of_nat n) 0
                    else Z.min z (Z.of_nat n)))
  | _ => Raise (TypeError
           "slice indices must be integers or None or have an __index__ method")
  end.

(** [a[:, lo:hi, :]] on a 3-D array. *)
Definition crop_axis1 (a : ndarray) (lo hi : pyval) : result ndarray :=
  match shape a with
  | [ns; nt; nk] =>
      match slice_bound nt lo 0, slice_bound nt hi nt with
      | Ok start, Ok stop =>
          let len := stop - start in
          Ok {| shape := [ns; len; nk];
                data := flat_map (fun s =>
                          flat_map (fun t =>
                            map (fun k => at_ a ((s * nt + (start + t)) * nk + k))
                                (seq 0 nk))
                            (seq 0 len))
                          (seq 0 ns) |}
      | Raise e, _ => Raise e
      | _, Raise e => Raise e
      end
  | _ => Raise (IndexError "too many indices for array")
  end.

(** [a.mean(axis=1)] on a 3-D array. *)
Definition mean_axis1 (a : ndarray) : result ndarray :=
  match shape a with
  | [ns; nl; nk] =>
      Ok {| shape := [ns; nk];
            data := flat_map (fun s =>
                      map (fun k =>
                        fmean (map (fun t => at_ a ((s * nl + t) * nk + k))
                                   (seq 0 nl)))
                          (seq 0 nk))
                      (seq 0 ns) |}
  | _ => Raise (IndexError "axis 1 is out of bounds for array")
  end.

(** ** scipy.spatial.distance.squareform *)

Definition ceil_sqrt (n : nat) : nat :=
  let s := Nat.sqrt n in if s * s =? n then s else S s.

(** Position of entry [(i, j)], [i < j], in the condensed vector of a
    [d] x [d] matrix. *)
Definition condensed_index (d i j : nat) : nat :=
  (i * d - i * (i + 1) / 2) + (j - i - 1).

Definition to_square (d : nat) (v : list fval) : ndarray :=
  {| shape := [d; d];
     data := flat_map (fun i =>
               map (fun j =>
                 if i =? j then Fin 0
                 else nth (condensed_index d (i `min` j) (i `max` j)) v NaN)
                   (seq 0 d))
               (seq 0 d) |}.

Definition to_condensed (d : nat) (m : list fval) : ndarray :=
  {| shape := [d * (d - 1) / 2];
     data := flat_map (fun i =>
               map (fun j => nth (i * d + j) m NaN) (seq (S i) (d - S i)))
               (seq 0 d) |}.

Definition is_symmetric (d : nat) (m : list fval) : bool :=
  forallb (fun i =>
    forallb (fun j => negb (fneq (nth (i * d + j) m NaN) (nth (j * d + i) m NaN)))
            (seq 0 d))
    (seq 0 d).

Definition has_zero_diagonal (d : nat) (m : list fval) : bool :=
  forallb (fun i => negb (fneq (nth (i * d + i) m NaN) (Fin 0))) (seq 0 d).

(** A 1-D argument is a condensed vector and is expanded to the square
    matrix; a 2-D argument is a square matrix and is condensed. *)
Definition squareform (X : ndarray) : result ndarray :=
  match shape X with
  | [m] =>
      if m =? 0 then Ok {| shape := [1; 1]; data := [Fin 0] |}
      else
        let d := ceil_sqrt (m * 2) in
        if d * (d - 1) =? m * 2 then Ok (to_square d (data X))
        else Raise (ValueError
          "Incompatible vector size. It must be a binomial coefficient n choose 2 for some integer n >= 2.")
  | [r; c] =>
      if negb (r =? c) then
        Raise (ValueError "The matrix argument must be square.")
      else if negb (is_symmetric r (data X)) then
        Raise (ValueError "Distance matrix 'X' must be symmetric.")
      else if negb (has_zero_diagonal r (data X)) then
        Raise (ValueError "Distance matrix 'X' diagonal must be zero.")
      else Ok (to_condensed r (data X))
  | _ =>
      Raise (ValueError
        ("The first argument must be one or two dimensional array. A " +:+
         pretty (ndim X) +:+ "-dimensional array is not permitted"))
  end.

(** ** matplotlib: figures, panels and the pyplot registry

    A figure is an object of the heap [figures], named by its object
    identity; pyplot's registry [managers] maps the number of every open
    figure to that object, and [active] is the number of the current
    figure.  A closed figure stays in the heap with its number but is no
    longer registered. *)

Record Image : Type := mk_Image {
  im_data : ndarray;
  im_cmap : string
}.

Record rect : Type := mk_rect { rx : Q; ry : Q; rw : Q; rh : Q }.

Inductive axpos : Type :=
  | GridCell (row col : nat)
  | At (r : rect).

Record Axes : Type := mk_Axes {
  ax_pos : axpos;
  ax_images : list Image;
  ax_title : option string;
  ax_visible : bool;
  ax_facecolor : option string;
  ax_spinecolor : option string;
  ax_mne_ch : option (string * nat)
}.

(** The pick handler [partial(_click_func, dsms=dsms, cmap=cmap)]. *)
Inductive Callback : Type :=
  | OnPick (dsms : ndarray) (cmap : string).

Record Suptitle : Type := mk_Suptitle {
  st_text : string;
  st_right_aligned : bool
}.

Record Figure : Type := mk_Figure {
  fig_number : nat;
  fig_figsize : Q * Q;
  fig_suptitle : option Suptitle;
  fig_face : option string;
  fig_axes : list Axes;
  fig_callbacks : list Callback;
  fig_colorbars : list Image;
  fig_shown : bool
}.

Record pyplot : Type := mk_pyplot {
  figures : gmap nat Figure;
  managers : gmap nat nat;
  active : option nat;
  next_id : nat
}.

#[global] Instance Q_eq_dec : EqDecision Q.
Proof. solve_decision. Defined.
#[global] Instance rect_eq_dec : EqDecision rect.
Proof. solve_decision. Defined.
#[global] Instance axpos_eq_dec : EqDecision axpos.
Proof. solve_decision. Defined.

Definition empty_pyplot : pyplot :=
  {| figures := ∅; managers := ∅; active := None; next_id := 0 |}.

Definition blank_axes (p : axpos) : Axes :=
  {| ax_pos := p; ax_images := []; ax_title := None; ax_visible := true;
     ax_facecolor := None; ax_spinecolor := None; ax_mne_ch := None |}.

Definition blank_figure (num : nat) (size : Q * Q) : Figure :=
  {| fig_number := num; fig_figsize := size; fig_suptitle := None;
     fig_face := None; fig_axes := []; fig_callbacks := [];
     fig_colorbars := []; fig_shown := false |}.

Definition set_axes (f : Figure) (axs : list Axes) : Figure :=
  {| fig_number := fig_number f; fig_figsize := fig_figsize f;
     fig_suptitle := fig_suptitle f; fig_face := fig_face f;
     fig_axes := axs; fig_callbacks := fig_callbacks f;
     fig_colorbars := fig_colorbars f; fig_shown := fig_shown f |}.

Definition set_suptitle (f : Figure) (t : Suptitle) : Figure :=
  {| fig_number := fig_number f; fig_figsize := fig_figsize f;
     fig_suptitle := Some t; fig_face := fig_face f;
     fig_axes := fig_axes f; fig_callbacks := fig_callbacks f;
     fig_colorbars := fig_colorbars f; fig_shown := fig_shown f |}.

Definition set_facecolor (f : Figure) (c : string) : Figure :=
  {| fig_number := fig_number f; fig_figsize := fig_figsize f;
     fig_suptitle := fig_suptitle f; fig_face := Some c;
     fig_axes := fig_axes f; fig_callbacks := fig_callbacks f;
     fig_colorbars := fig_colorbars f; fig_shown := fig_shown f |}.

Definition add_callback (f : Figure) (cb : Callback) : Figure :=
  {| fig_number := fig_number f; fig_figsize := fig_figsize f;
     fig_suptitle := fig_suptitle f; fig_face := fig_face f;
     fig_axes := fig_axes f; fig_callbacks := fig_callbacks f ++ [cb];
     fig_colorbars := fig_colorbars f; fig_shown := fig_shown f |}.

Definition add_colorbar (f : Figure) (im : Image) : Figure :=
  {| fig_number := fig_number f; fig_figsize := fig_figsize f;
     fig_suptitle := fig_suptitle f; fig_face := fig_face f;
     fig_axes := fig_axes f; fig_callbacks := fig_callbacks f;
     fig_colorbars := fig_colorbars f ++ [im]; fig_shown := fig_shown f |}.

Definition set_shown (f : Figure) : Figure :=
  {| fig_number := fig_number f; fig_figsize := fig_figsize f;
     fig_suptitle := fig_suptitle f; fig_face := fig_face f;
     fig_axes := fig_axes f; fig_callbacks := fig_callbacks f;
     fig_colorbars := fig_colorbars f; fig_shown := true |}.

Definition add_image (a : Axes) (im : Image) : Axes :=
  {| ax_pos := ax_pos a; ax_images := ax_images a ++ [im];
     ax_title := ax_title a; ax_visible := ax_visible a;
     ax_facecolor := ax_facecolor a; ax_spinecolor := ax_spinecolor a;
     ax_mne_ch := ax_mne_ch a |}.

Definition with_title (a : Axes) (t : string) : Axes :=
  {| ax_pos := ax_pos a; ax_images := ax_images a;
     ax_title := Some t; ax_visible := ax_visible a;
     ax_facecolor := ax_facecolor a; ax_spinecolor := ax_spinecolor a;
     ax_mne_ch := ax_mne_ch a |}.

Definition with_visible (a : Axes) (b : bool) : Axes :=
  {| ax_pos := ax_pos a; ax_images := ax_images a;
     ax_title := ax_title a; ax_visible := b;
     ax_facecolor := ax_facecolor a; ax_spinecolor := ax_spinecolor a;
     ax_mne_ch := ax_mne_ch a |}.

Definition with_figures (st : pyplot) (h : gmap nat Figure) : pyplot :=
  {| figures := h; managers := managers st; active := active st;
     next_id := next_id st |}.

Definition with_active (st : pyplot) (num : nat) : pyplot :=
  {| figures := figures st; managers := managers st; active := Some num;
     next_id := next_id st |}.

(** ** The state-and-exception monad of the embedded functions *)

Definition M (A : Type) : Type := pyplot -> result A * pyplot.

Definition ret {A} (a : A) : M A := fun st => (Ok a, st).
Definition raise {A} (e : exn) : M A := fun st => (Raise e, st).
Definition lift {A} (r : result A) : M A := fun st => (r, st).
Definition bind {A B} (m : M A) (k : A -> M B) : M B :=
  fun st =>
    match m st with
    | (Ok a, st') => k a st'
    | (Raise e, st') => (Raise e, st')
    end.

Notation "'let*' x ':=' c 'in' k" := (bind c (fun x => k))
  (at level 10, x name, c at level 100, k at level 200).

(** [for x in l: acc = body(x, acc)]; an exception leaves the loop. *)
Fixpoint for_each {A B} (l : list A) (body : A -> B -> M B) (acc : B) : M B :=
  match l with
  | [] => ret acc
  | x :: l' => let* acc' := body x acc in for_each l' body acc'
  end.

(** [enumerate(l)], counting from [i]. *)
Fixpoint enumerate_from {A} (i : nat) (l : list A) : list (nat * A) :=
  match l with
  | [] => []
  | x :: l' => (i, x) :: enumerate_from (S i) l'
  end.

(** *** pyplot primitives *)

Definition next_num (m : gmap nat nat) : nat :=
  S (max_list (map fst (map_to_list m))).

Definition new_figure (num : nat) (size : Q * Q) : M nat :=
  fun st =>
    let id := next_id st in
    (Ok id,
     {| figures := <[id := blank_figure num size]> (figures st);
        managers := <[num := id]> (managers st);
        active := Some num;
        next_id := S id |}).

Definition default_figsize : Q * Q := (32 # 5, 24 # 5)%Q.

(** [plt.figure(figsize=size)]: a new figure under the next free number. *)
Definition plt_figure (size : Q * Q) : M nat :=
  fun st => new_figure (next_num (managers st)) size st.

(** [plt.figure(num)]: the open figure of that number is made current and
    returned; when there is none, a new figure gets the number. *)
Definition plt_figure_num (num : nat) : M nat :=
  fun st =>
    match managers st !! num with
    | Some id => (Ok id, with_active st num)
    | None => new_figure num default_figsize st
    end.

(** [plt.gcf()] *)
Definition plt_gcf : M nat :=
  fun st =>
    match active st with
    | Some num =>
        match managers st !! num with
        | Some id => (Ok id, st)
        | None => plt_figure default_figsize st
        end
    | None => plt_figure default_figsize st
    end.

(** [fig.number]; a figure that pyplot never managed has no such attribute. *)
Definition fig_get_number (fig : nat) : M nat :=
  fun st =>
    match figures st !! fig with
    | Some f => (Ok (fig_number f), st)
    | None => (Raise (AttributeError
                 "'Figure' object has no attribute 'number'"), st)
    end.

Definition update_figure (fig : nat) (g : Figure -> Figure) : M unit :=
  fun st => (Ok tt, with_figures st (alter g fig (figures st))).

Definition update_axes (ax : nat * nat) (g : Axes -> Axes) : M unit :=
  update_figure (fst ax)
    (fun f => set_axes f (alter g (snd ax) (fig_axes f))).

Definition count_axes (fig : nat) : M nat :=
  fun st => (Ok (from_option (fun f => length (fig_axes f)) 0
                             (figures st !! fig)), st).

(** [fig.add_axes]: the new panel is drawn after (on top of) the others. *)
Definition add_axes (fig : nat) (a : Axes) : M (nat * nat) :=
  let* n := count_axes fig in
  let* _ := update_figure fig (fun f => set_axes f (fig_axes f ++ [a])) in
  ret (fig, n).

(** [plt.axes(rect)]: a new panel at [rect] in the current figure. *)
Definition plt_axes (r : rect) : M (nat * nat) :=
  let* fig := plt_gcf in
  add_axes fig (blank_axes (At r)).

(** [fig.subplots(n_rows, n_cols, squeeze=False)]: the panels of the grid in
    row-major order; the result is the reference of panel [(0, 0)].  The
    grid specification refuses a number of rows or of columns that is not
    positive, rows first. *)
Definition fig_subplots (fig : nat) (n_rows n_cols : Z) : M (nat * nat) :=
  if (n_rows <=? 0)%Z then
    raise (ValueError ("Number of rows must be a positive integer, not " +:+
                       pretty n_rows))
  else if (n_cols <=? 0)%Z then
    raise (ValueError ("Number of columns must be a positive integer, not " +:+
                       pretty n_cols))
  else
    let* n := count_axes fig in
    let* _ := update_figure fig (fun f =>
                set_axes f (fig_axes f ++
                  flat_map (fun row =>
                    map (fun col => blank_axes (GridCell row col))
                        (seq 0 (Z.to_nat n_cols)))
                    (seq 0 (Z.to_nat n_rows)))) in
    ret (fig, n).

(** [ax[row, col]] in the array that [fig.subplots] returned. *)
Definition grid_at (ax : nat * nat) (n_cols row col : nat) : nat * nat :=
  (fst ax, snd ax + row * n_cols + col).

(** [ax.imshow(X, cmap=cmap)]: image data is 2-D, or 3-D with 3 or 4
    channels; the image is added to the panel. *)
Definition image_shape_ok (s : list nat) : bool :=
  match s with
  | [_; _] => true
  | [_; _; c] => (c =? 3) || (c =? 4)
  | _ => false
  end.

Definition imshow (ax : nat * nat) (X : ndarray) (cmap : string) : M Image :=
  if image_shape_ok (shape X) then
    let im := {| im_data := X; im_cmap := cmap |} in
    let* _ := update_axes ax (fun a => add_image a im) in
    ret im
  else
    raise (TypeError ("Invalid shape " +:+ shape_repr (shape X) +:+
                      " for image data")).

(** [plt.colorbar(im, ax=ax)] *)
Definition plt_colorbar (im : Image) : M unit :=
  let* fig := plt_gcf in
  update_figure fig (fun f => add_colorbar f im).

(** [plt.suptitle(t)] *)
Definition plt_suptitle (t : string) : M unit :=
  let* fig := plt_gcf in
  update_figure fig (fun f =>
    set_suptitle f {| st_text := t; st_right_aligned := false |}).

(** [plt.gcf().show()] *)
Definition plt_show : M unit :=
  let* fig := plt_gcf in
  update_figure fig set_shown.

(** ** MNE: sensor layouts and the topography iterator *)

Record Layout : Type := mk_Layout {
  layout_names : list string;
  layout_pos : list rect
}.

(** The measurement info: the channel names, and the layout that
    [find_layout(info)] derives from it. *)
Record Info : Type := mk_Info {
  ch_names : list string;
  found_layout : Layout
}.

Fixpoint index_of (name : string) (l : list string) : nat :=
  match l with
  | [] => 0
  | x :: r => if String.eqb x name then 0 else S (index_of name r)
  end.

(** The first step of the generator [_iter_topography(info, layout, on_pick,
    fig, ..., unified=False)]: the figure gets its face colour and the pick
    handler, and the layout entries of known channels are selected. *)
Definition iter_topography_begin (info : Info) (layout : option Layout)
    (on_pick : Callback) (fig : nat) (fig_facecolor : string)
    : M (Layout * list (nat * string)) :=
  let* _ := update_figure fig (fun f => set_facecolor f fig_facecolor) in
  let layout := default (found_layout info) layout in
  let* _ := update_figure fig (fun f => add_callback f on_pick) in
  ret (layout,
       filter (fun p => existsb (String.eqb (snd p)) (ch_names info) = true)
              (enumerate_from 0 (layout_names layout))).

(** One step of the generator: the panel of layout entry [idx] is created
    with [plt.axes(pos[idx])] in the current figure and yielded with the
    channel index. *)
Definition iter_topography_next (info : Info) (layout : Layout)
    (axis_facecolor axis_spinecolor : string) (ch : nat * string)
    : M (nat * nat * nat) :=
  let ch_idx := index_of (snd ch) (ch_names info) in
  match layout_pos layout !! fst ch with
  | None => raise (IndexError ("index " +:+ pretty (fst ch) +:+
              " is out of bounds for axis 0 with size " +:+
              pretty (length (layout_pos layout))))
  | Some r =>
      let* ax := plt_axes r in
      let* _ := update_axes ax (fun a =>
                  {| ax_pos := ax_pos a; ax_images := ax_images a;
                     ax_title := ax_title a; ax_visible := ax_visible a;
                     ax_facecolor := Some axis_facecolor;
                     ax_spinecolor := Some axis_spinecolor;
                     ax_mne_ch := Some (snd ch, ch_idx) |}) in
      ret (ax, ch_idx)
  end.

(** * The functions of [viz.py] *)

Inductive dsms_arg : Type :=
  | OneDSM (d : ndarray)
  | DSMList (l : list ndarray).

Inductive names_arg : Type :=
  | NoNames
  | OneName (s : string)
  | NameList (l : list string).

(** [int(np.ceil(k / n_rows))] *)
Definition ceil_div (k : nat) (n_rows : Z) : result Z :=
  if (n_rows =? 0)%Z then Raise (ZeroDivisionError "division by zero")
  else Ok (- ((- Z.of_nat k) / n_rows))%Z.

Definition arity_message (n_names n_dsms : nat) : string :=
  "Number of given names (" +:+ pretty n_names +:+
  ") does not match the number of DSMs (" +:+ pretty n_dsms +:+ ")".

Definition shape_message (s : list nat) : string :=
  "Invalid shape " +:+ shape_repr s +:+ " for DSM".

(** The conversion of one DSM before it is drawn: a condensed DSM is
    expanded, a DSM of more than two dimensions is refused. *)
Definition shape_dsm (dsm : ndarray) : result ndarray :=
  if ndim dsm =? 1 then squareform dsm
  else if 2 <? ndim dsm then Raise (ValueError (shape_message (shape dsm)))
  else Ok dsm.

(** The body of the two nested loops of [plot_dsms] for the cell
    [(row, col)]; [im] is the local variable of that name, unbound
    ([None]) until a cell has been drawn. *)
Definition plot_dsms_cell (dsms : list ndarray) (names : option (list string))
    (cmap : string) (ax : nat * nat) (n_cols row col : nat)
    (im : option Image) : M (option Image) :=
  let i := row * n_cols + col `mod` n_cols in
  match dsms !! i with
  | Some dsm =>
      let* dsm := lift (shape_dsm dsm) in
      let* im' := imshow (grid_at ax n_cols row col) dsm cmap in
      let* _ :=
        match names with
        | Some ns =>
            match ns !! i with
            | Some name =>
                update_axes (grid_at ax n_cols row col)
                            (fun a => with_title a name)
            | None => raise (IndexError "list index out of range")
            end
        | None => ret tt
        end in
      ret (Some im')
  | None =>
      let* _ := update_axes (grid_at ax n_cols row col)
                            (fun a => with_visible a false) in
      ret im
  end.

Definition plot_dsms (dsms : dsms_arg) (names : names_arg)
    (items : option (list string)) (n_rows : Z) (cmap : string)
    (title : option string) : M nat :=
  let dsms := match dsms with DSMList l => l | OneDSM d => [d] end in
  let names := match names with
               | OneName s => Some [s]
               | NameList l => Some l
               | NoNames => None
               end in
  if match names with
     | Some ns => negb (length ns =? length dsms)
     | None => false
     end
  then
    raise (ValueError
             (arity_message (from_option length 0 names) (length dsms)))
  else
    let* n_cols := lift (ceil_div (length dsms) n_rows) in
    let* fig := plt_figure (inject_Z (2 * n_cols), inject_Z (2 * n_rows)) in
    let* ax := fig_subplots fig n_rows n_cols in
    let* im :=
      for_each (seq 0 (Z.to_nat n_rows)) (fun row im =>
        for_each (seq 0 (Z.to_nat n_cols)) (fun col im =>
          plot_dsms_cell dsms names cmap ax (Z.to_nat n_cols) row col im)
          im)
        None in
    let* im :=
      match im with
      | Some im => ret im
      | None => raise (UnboundLocalError
                  "local variable 'im' referenced before assignment")
      end in
    let* _ := plt_colorbar im in
    let* _ := match title with
              | Some t => plt_suptitle t
              | None => ret tt
              end in
    ret fig.

Definition _click_func (ax : nat * nat) (ch_idx : nat) (dsms : ndarray)
    (cmap : string) : M unit :=
  let* dsm := lift (getitem dsms ch_idx) in
  let* dsm := lift (squareform dsm) in
  let* _ := imshow ax dsm cmap in
  ret tt.

(** The keyword arguments that the topography functions pass along. *)
Record Style : Type := mk_Style {
  axis_facecolor : string;
  axis_spinecolor : string;
  fig_facecolor : string;
  figsize : Q * Q;
  cmap : string;
  show : bool
}.

Definition default_style : Style :=
  {| axis_facecolor := "w"; axis_spinecolor := "w"; fig_facecolor := "w";
     figsize := default_figsize; cmap := "viridis"; show := false |}.

(** The body of the loop of [_plot_dsms_topo]: the generator is advanced,
    then the DSM of position [i] is drawn in the panel it yielded. *)
Definition topo_step (dsms : ndarray) (info : Info) (layout : Layout)
    (sty : Style) (ich : nat * (nat * string)) (_ : unit) : M unit :=
  let* axc := iter_topography_next info layout (axis_facecolor sty)
                (axis_spinecolor sty) (snd ich) in
  let* dsms_i := lift (getitem dsms (fst ich)) in
  let* dsms_i := lift (squareform dsms_i) in
  let* _ := imshow (fst axc) dsms_i (cmap sty) in
  ret tt.

Definition _plot_dsms_topo (dsms : ndarray) (info : Info)
    (layout : option Layout) (fig : option nat) (title : option string)
    (sty : Style) : M nat :=
  let on_pick := OnPick dsms (cmap sty) in
  let* fig :=
    match fig with
    | None =>
        let* fig := plt_figure (figsize sty) in
        let* _ :=
          match title with
          | Some t => update_figure fig (fun f =>
                        set_suptitle f {| st_text := t;
                                          st_right_aligned := true |})
          | None => ret tt
          end in
        ret fig
    | Some fig =>
        let* num := fig_get_number fig in
        plt_figure_num num
    end in
  let* my_topo_plot :=
    iter_topography_begin info layout on_pick fig (fig_facecolor sty) in
  let* _ := for_each (enumerate_from 0 (snd my_topo_plot))
                     (topo_step dsms info (fst my_topo_plot) sty) tt in
  let* _ := if show sty then plt_show else ret tt in
  ret fig.

(** [v[i]] for a Python sequence and a non-negative [i]. *)
Definition py_getitem (v : pyval) (i : nat) : result pyval :=
  match v with
  | PList l =>
      match l !! i with
      | Some x => Ok x
      | None => Raise (IndexError "list index out of range")
      end
  | PTuple l =>
      match l !! i with
      | Some x => Ok x
      | None => Raise (IndexError "tuple index out of range")
      end
  | PStr s =>
      match String.get i s with
      | Some c => Ok (PStr (String c EmptyString))
      | None => Raise (IndexError "string index out of range")
      end
  | PInt _ => Raise (TypeError "'int' object is not subscriptable")
  | PNone => Raise (TypeError "'NoneType' object is not subscriptable")
  end.

(** [figs[i]] and [figs[i] = fig] for the list of figures, which may be
    [None]. *)
Definition figs_getitem (figs : option (list (option nat))) (i : nat)
    : result (option nat) :=
  match figs with
  | None => Raise (TypeError "'NoneType' object is not subscriptable")
  | Some l =>
      match l !! i with
      | Some x => Ok x
      | None => Raise (IndexError "list index out of range")
      end
  end.

Definition figs_setitem (figs : option (list (option nat))) (i : nat)
    (fig : nat) : option (list (option nat)) :=
  match figs with
  | None => None
  | Some l => Some (<[i := Some fig]> l)
  end.

Definition shape_error_3d : exn :=
  ValueError "dsms have to be 3-dimensional ndarray or numpy.memmap, [n_sensors, n_epochs, n_dsm_datapoints]".

Definition time_type_error : exn :=
  TypeError "time has to be list of [int, int].".

Definition figs_arity_error : exn :=
  ValueError "time_windows and figs needs to have a same length or figs needs to be None.".

(** The [if]/[elif] chain that opens [plot_dsms_topos]: exactly one branch
    runs.  The result is the pair of the local variables [time_windows] and
    [figs] after the chain. *)
Definition check_arguments (dsms : ndarray) (time_windows : pyval)
    (figs : option (list (option nat)))
    : result (pyval * option (list (option nat))) :=
  if negb (length (shape dsms) =? 3) then
    Raise shape_error_3d
  else
    match time_windows with
    | PNone =>
        Ok (PList [PList [PInt 0; PInt (Z.of_nat (nth 1 (shape dsms) 0))]],
            figs)
    | PList tws =>
        if negb (forallb isinstance_list tws) then
          Raise time_type_error
        else
          match figs with
          | None => Ok (time_windows, Some (replicate (length tws) None))
          | Some fl =>
              if negb (length tws =? length fl) then Raise figs_arity_error
              else Ok (time_windows, figs)
          end
    | _ => Raise time_type_error
    end.

(** The right-hand side of the assignment in the loop of
    [plot_dsms_topos], for window [i]. *)
Definition window_body (dsms : ndarray) (info : Info) (layout : option Layout)
    (sty : Style) (i : nat) (time_window : pyval)
    (figs : option (list (option nat))) : M nat :=
  let* lo := lift (py_getitem time_window 0) in
  let* hi := lift (py_getitem time_window 1) in
  let* dsms_cropped := lift (crop_axis1 dsms lo hi) in
  let* dsms_avg := lift (mean_axis1 dsms_cropped) in
  let title := "From " +:+ py_str lo +:+ " to " +:+ py_str hi in
  let* fig_i := lift (figs_getitem figs i) in
  _plot_dsms_topo dsms_avg info layout fig_i (Some title) sty.

(** The loop over the windows.  [figs] is a list object that the loop
    updates in place; it is the caller's own list when the caller supplied
    one, so its value is returned on every path. *)
Fixpoint windows_loop (dsms : ndarray) (info : Info) (layout : option Layout)
    (sty : Style) (tws : list (nat * pyval))
    (figs : option (list (option nat))) (st : pyplot)
    : result unit * option (list (option nat)) * pyplot :=
  match tws with
  | [] => (Ok tt, figs, st)
  | (i, time_window) :: rest =>
      match window_body dsms info layout sty i time_window figs st with
      | (Ok fig, st') =>
          windows_loop dsms info layout sty rest (figs_setitem figs i fig) st'
      | (Raise e, st') => (Raise e, figs, st')
      end
  end.

Definition py_elements (v : pyval) : list pyval :=
  match v with
  | PList l | PTuple l => l
  | _ => []
  end.

(** The result is the returned value (or the exception), the final value of
    [figs], and the final pyplot state. *)
Definition plot_dsms_topos (dsms : ndarray) (info : Info)
    (time_windows : pyval) (layout : option Layout)
    (figs : option (list (option nat))) (sty : Style) (st : pyplot)
    : result (option (list (option nat))) * option (list (option nat))
      * pyplot :=
  match check_arguments dsms time_windows figs with
  | Raise e => (Raise e, figs, st)
  | Ok (time_windows, figs) =>
      match windows_loop dsms info layout sty
              (enumerate_from 0 (py_elements time_windows)) figs st with
      | (Ok _, figs, st') => (Ok figs, figs, st')
      | (Raise e, figs, st') => (Raise e, figs, st')
      end
  end.

(** * Derived notions used by the statements *)

(** The exceptions that the specification names. *)
Definition ShapeError_dsm (s : list nat) : exn := ValueError (shape_message s).

Definition ArityError_names (n_names n_dsms : nat) : exn :=
  ValueError (arity_message n_names n_dsms).

Definition none_not_subscriptable : exn :=
  TypeError "'NoneType' object is not subscriptable".

Definition im_unbound : exn :=
  UnboundLocalError "local variable 'im' referenced before assignment".

(** The sequences that [plot_dsms] works on after promoting a single DSM and
    a single name. *)
Definition dsms_seq (dsms : dsms_arg) : list ndarray :=
  match dsms with DSMList l => l | OneDSM d => [d] end.

Definition names_seq (names : names_arg) : option (list string) :=
  match names with
  | OneName s => Some [s]
  | NameList l => Some l
  | NoNames => None
  end.

(** What the structural check of [plot_dsms_topos] accepts. *)
Definition is_list_of_lists (v : pyval) : bool :=
  match v with
  | PList l => forallb isinstance_list l
  | _ => false
  end.

(** A sequence of 2-element integer-pair sequences, in the words of the
    specification: any ordered container counts as a sequence. *)
Definition is_int (v : pyval) : bool :=
  match v with PInt _ => true | _ => false end.

Definition is_int_pair (v : pyval) : bool :=
  match v with
  | PList [a; b] | PTuple [a; b] => is_int a && is_int b
  | _ => false
  end.

Definition is_sequence_of_int_pairs (v : pyval) : bool :=
  match v with
  | PList l | PTuple l => forallb is_int_pair l
  | _ => false
  end.

(** The number of heatmaps that have been drawn, over all figures. *)
Definition images_in (f : Figure) : nat :=
  sum_list (map (fun a => length (ax_images a)) (fig_axes f)).

Definition images_drawn (st : pyplot) : nat :=
  sum_list (map (fun p => images_in (snd p)) (map_to_list (figures st))).

(** A figure handle is open when pyplot still manages the figure. *)
Definition is_open (st : pyplot) (fig : nat) : Prop :=
  exists f, figures st !! fig = Some f /\
            managers st !! fig_number f = Some fig.


(** The state in which the figure object [fig] has the content [f]. *)
Definition on_fig (st : pyplot) (fig : nat) (f : Figure) : pyplot :=
  with_figures st (<[fig := f]> (figures st)).

(** [fig] is the current figure of pyplot. *)
Definition is_current (st : pyplot) (fig : nat) : Prop :=
  exists num, active st = Some num /\ managers st !! num = Some fig.

(** The state right after [plt.figure] has opened figure number [num], but
    for the content of the new object. *)
Definition opened (st : pyplot) (num : nat) : pyplot :=
  {| figures := figures st;
     managers := <[num := next_id st]> (managers st);
     active := Some num;
     next_id := S (next_id st) |}.

(** A DSM that [plot_dsms] can draw: it converts, and the result is image
    data. *)
Definition drawable (d : ndarray) : bool :=
  match shape_dsm d with
  | Ok m => image_shape_ok (shape m)
  | Raise _ => false
  end.

(** What drawing DSM [m] does to a panel of the grid. *)
Definition drawn_cell (m : ndarray) (cmap : string) (name : option string)
    (a : Axes) : Axes :=
  let a' := add_image a {| im_data := m; im_cmap := cmap |} in
  match name with
  | Some t => with_title a' t
  | None => a'
  end.

(** What one pass of the loop body of [plot_dsms] does to panel [i], and to
    the variable [im]. *)
Definition cell_update (dsms : list ndarray) (names : option (list string))
    (cmap : string) (i : nat) (a : Axes) : Axes :=
  match dsms !! i with
  | Some d =>
      match shape_dsm d with
      | Ok m => drawn_cell m cmap (names ≫= (fun ns => ns !! i)) a
      | Raise _ => a
      end
  | None => with_visible a false
  end.

Definition cell_image (dsms : list ndarray) (cmap : string) (i : nat)
    (im : option Image) : option Image :=
  match dsms !! i with
  | Some d =>
      match shape_dsm d with
      | Ok m => Some {| im_data := m; im_cmap := cmap |}
      | Raise _ => im
      end
  | None => im
  end.

(** [names] as [plot_dsms] has it after its promotion, back as an
    argument. *)
Definition names_of (names : option (list string)) : names_arg :=
  match names with
  | Some l => NameList l
  | None => NoNames
  end.

(** The panels of a new [R] x [C] grid, and the panels after the loop of
    [plot_dsms] has passed over the cells [0 .. n - 1]. *)
Definition blank_grid (R C : nat) : list Axes :=
  flat_map (fun row => map (fun col => blank_axes (GridCell row col)) (seq 0 C))
           (seq 0 R).

Definition drawn_grid (dsms : list ndarray) (names : option (list string))
    (cmap : string) (R C n : nat) : list Axes :=
  foldl (fun axs i => alter (cell_update dsms names cmap i) i axs)
        (blank_grid R C) (seq 0 n).

(** The statements of [plot_dsms] that follow its loop. *)
Definition plot_dsms_finish (title : option string) (fig : nat)
    (im : option Image) : M nat :=
  let* im :=
    match im with
    | Some im => ret im
    | None => raise im_unbound
    end in
  let* _ := plt_colorbar im in
  let* _ := match title with
            | Some t => plt_suptitle t
            | None => ret tt
            end in
  ret fig.

(** The figure that [plot_dsms] has opened when its loop starts. *)
Definition grid_figure (st : pyplot) (R C : nat) : Figure :=
  set_axes (blank_figure (next_num (managers st))
              (inject_Z (2 * Z.of_nat C), inject_Z (2 * Z.of_nat R)))
           (blank_grid R C).

Definition with_suptitle (title : option string) (f : Figure) : Figure :=
  match title with
  | Some t => set_suptitle f {| st_text := t; st_right_aligned := false |}
  | None => f
  end.

(** [avoids P m]: the computation [m] never raises an exception in [P]. *)
Definition avoids {A} (P : exn -> Prop) (m : M A) : Prop :=
  forall st e st', m st = (Raise e, st') -> ~ P e.

(** The class of the [TypeError] of the time-window check. *)
Definition is_time_type_error (e : exn) : Prop := e = time_type_error.

(** The class of the [ValueError] of the names check of [plot_dsms]. *)
Definition is_names_arity_error (e : exn) : Prop :=
  exists a b, e = ArityError_names a b.

(** The layout entries that the topography iterator visits for [info] and
    [layout], numbered as [enumerate] numbers them. *)
Definition topo_channels (info : Info) (layout : option Layout)
    : list (nat * (nat * string)) :=
  enumerate_from 0
    (filter (fun p => existsb (String.eqb (snd p)) (ch_names info) = true)
            (enumerate_from 0
               (layout_names (default (found_layout info) layout)))).

(** The panel that one successful pass of the loop of [_plot_dsms_topo]
    adds for the entry [ich]; [None] when the pass raises. *)
Definition topo_panel (dsms : ndarray) (info : Info) (layout : option Layout)
    (sty : Style) (ich : nat * (nat * string)) : option Axes :=
  match layout_pos (default (found_layout info) layout) !! fst (snd ich),
        getitem dsms (fst ich) with
  | Some r, Ok row =>
      match squareform row with
      | Ok sq =>
          if image_shape_ok (shape sq) then
            Some {| ax_pos := At r;
                    ax_images := [{| im_data := sq; im_cmap := cmap sty |}];
                    ax_title := None;
                    ax_visible := true;
                    ax_facecolor := Some (axis_facecolor sty);
                    ax_spinecolor := Some (axis_spinecolor sty);
                    ax_mne_ch :=
                      Some (snd (snd ich),
                            index_of (snd (snd ich)) (ch_names info)) |}
          else None
      | Raise _ => None
      end
  | _, _ => None
  end.

Definition topo_panels (dsms : ndarray) (info : Info) (layout : option Layout)
    (sty : Style) : list Axes :=
  omap (topo_panel dsms info layout sty) (topo_channels info layout).

Definition is_drawn (p : option Axes) : bool :=
  match p with Some _ => true | None => false end.

(** Every visited entry has a position, a DSM, and the DSM can be drawn. *)
Definition topo_drawable (dsms : ndarray) (info : Info)
    (layout : option Layout) (sty : Style) : bool :=
  forallb (fun ich => is_drawn (topo_panel dsms info layout sty ich))
          (topo_channels info layout).

(** The content of a figure after a successful pass of [_plot_dsms_topo]
    over it. *)
Definition topo_drawn (dsms : ndarray) (info : Info) (layout : option Layout)
    (sty : Style) (f : Figure) : Figure :=
  let f1 := add_callback (set_facecolor f (fig_facecolor sty))
                         (OnPick dsms (cmap sty)) in
  let f2 := set_axes f1 (fig_axes f1 ++ topo_panels dsms info layout sty) in
  if show sty then set_shown f2 else f2.

(** The lengths of condensed vectors that [squareform] expands: 0, or
    [d * (d - 1) / 2] for the [d] that it computes. *)
Definition condensed_size_ok (m : nat) : bool :=
  (m =? 0) || (ceil_sqrt (m * 2) * (ceil_sqrt (m * 2) - 1) =? m * 2).

(** The figure that [_plot_dsms_topo] has created, titled and handed to
    the topography iterator when its loop starts ([fig=None]). *)
Definition new_topo_figure (st : pyplot) (dsms : ndarray)
    (title : option string) (sty : Style) : Figure :=
  let f0 := blank_figure (next_num (managers st)) (figsize sty) in
  let f1 := match title with
            | Some t => set_suptitle f0 {| st_text := t;
                                           st_right_aligned := true |}
            | None => f0
            end in
  add_callback (set_facecolor f1 (fig_facecolor sty)) (OnPick dsms (cmap sty)).

(** The panel that the iterator has created for an entry at position [r]
    when the loop body raises before drawing into it. *)
Definition empty_topo_panel (info : Info) (sty : Style) (r : rect)
    (name : string) : Axes :=
  {| ax_pos := At r; ax_images := []; ax_title := None; ax_visible := true;
     ax_facecolor := Some (axis_facecolor sty);
     ax_spinecolor := Some (axis_spinecolor sty);
     ax_mne_ch := Some (name, index_of name (ch_names info)) |}.

(** The names of the layout entries that the iterator visits, in order. *)
Definition visited_names (info : Info) (layout : option Layout) : list string :=
  (fun ich => snd (snd ich)) <$> topo_channels info layout.

(** The body of the window loop runs through for the window [tw]: its two
    bounds can be read, the slice and the mean can be taken, and the mean
    DSMs can be drawn on the topography. *)
Definition window_ok (dsms : ndarray) (info : Info) (layout : option Layout)
    (sty : Style) (tw : pyval) : bool :=
  match py_getitem tw 0, py_getitem tw 1 with
  | Ok lo, Ok hi =>
      match crop_axis1 dsms lo hi with
      | Ok c =>
          match mean_axis1 c with
          | Ok avg => topo_drawable avg info layout sty
          | Raise _ => false
          end
      | Raise _ => false
      end
  | _, _ => false
  end.

(** The title that the window loop gives the figure of window [tw]. *)
Definition window_title (tw : pyval) : option Suptitle :=
  match py_getitem tw 0, py_getitem tw 1 with
  | Ok lo, Ok hi =>
      Some {| st_text := "From " +:+ py_str lo +:+ " to " +:+ py_str hi;
              st_right_aligned := true |}
  | _, _ => None
  end.










(** ** Sample inputs *)

Definition ex_layout : Layout :=
  {| layout_names := ["MEG 001"; "MEG 002"];
     layout_pos := [ {| rx := 1 # 10; ry := 1 # 10; rw := 1 # 5; rh := 1 # 5 |};
                     {| rx := 3 # 5; ry := 1 # 2; rw := 1 # 5; rh := 1 # 5 |} ] |}.

Definition ex_info : Info :=
  {| ch_names := ["MEG 001"; "MEG 002"]; found_layout := ex_layout |}.

(** 2 sensors, 4 time samples, condensed size 1, values 1 2 3 4 per sensor. *)
Definition ex_tensor : ndarray :=
  {| shape := [2; 4; 1];
     data := [Fin 1; Fin 2; Fin 3; Fin 4; Fin 1; Fin 2; Fin 3; Fin 4] |}.

(** A 2-D array where a tensor is expected. *)
Definition ex_matrix : ndarray :=
  {| shape := [2; 1]; data := [Fin 1; Fin 2] |}.

(** A condensed DSM of two items, and an array of three dimensions. *)
Definition ex_dsm : ndarray := {| shape := [1]; data := [Fin 1] |}.

Definition ex_dsm_3d : ndarray := {| shape := [1; 1; 1]; data := [Fin 1] |}.

(** The pyplot state after the caller has opened two figures, which are
    the objects 0 and 1. *)
Definition ex_two_figures : pyplot :=
  snd (plt_figure default_figsize (snd (plt_figure default_figsize empty_pyplot))).

(** One condensed DSM of two items per sensor, for two sensors. *)
Definition ex_dsms_a : ndarray :=
  {| shape := [2; 1]; data := [Fin 1; Fin 2] |}.

Definition ex_dsms_b : ndarray :=
  {| shape := [2; 1]; data := [Fin 3; Fin 4] |}.

(** A state in which the figure object 0, of number 1, has been closed. *)
Definition ex_closed_figure : pyplot :=
  {| figures := {[ 0 := blank_figure 1 default_figsize ]};
     managers := ∅;
     active := None;
     next_id := 1 |}.

(** The condensed DSM of one sensor only, as a 2-D array with one row. *)
Definition ex_dsm_row : ndarray := {| shape := [1; 1]; data := [Fin 1] |}.

(** * Theorems *)

(** ** The argument checks of [plot_dsms_topos] *)

(** C8. A tensor that is not exactly 3-dimensional makes [plot_dsms_topos]
    raise the shape error at once: no window is processed, the pyplot
    state (every figure, the caller's included) is as before, and so is
    the caller's list of figures. *)
Theorem C8_tensor_shape_checked_first
    (dsms : ndarray) (info : Info) (time_windows : pyval)
    (layout : option Layout) (figs : option (list (option nat)))
    (sty : Style) (st : pyplot) :
  ndim dsms <> 3 ->
  plot_dsms_topos dsms info time_windows layout figs sty st
  = (Raise shape_error_3d, figs, st).
Proof.
  intros Hdim. unfold plot_dsms_topos, check_arguments.
  destruct (Nat.eqb_spec (length (shape dsms)) 3) as [Heq | Hne].
  - contradiction.
  - reflexivity.
Qed.

Lemma C8_witness :
  ndim ex_matrix <> 3 /\
  plot_dsms_topos ex_matrix ex_info (PList [PList [PInt 0; PInt 1]]) None
    (Some [Some 0; Some 1]) default_style ex_two_figures
  = (Raise shape_error_3d, Some [Some 0; Some 1], ex_two_figures).
Proof.
  split.
  - vm_compute. discriminate.
  - apply (C8_tensor_shape_checked_first ex_matrix). vm_compute. discriminate.
Defined.

Lemma shape_of_3d (a : ndarray) :
  ndim a = 3 -> exists ns nt nk, shape a = [ns; nt; nk].
Proof.
  unfold ndim. destruct (shape a) as [|ns [|nt [|nk [|? ?]]]]; try discriminate.
  intros _. by exists ns, nt, nk.
Qed.

(** C1. With [time_windows=None] and [figs=None] the call does not draw the
    mean over the whole time axis: for every 3-D tensor it raises a
    [TypeError] when the loop reads [figs[0]], because the branch of the
    [if]/[elif] chain that sets the default window is not the branch that
    replaces [figs=None] by a list.  Nothing has been drawn by then. *)
Theorem C1_default_window_without_figs_raises
    (dsms : ndarray) (info : Info) (layout : option Layout)
    (sty : Style) (st : pyplot) :
  ndim dsms = 3 ->
  plot_dsms_topos dsms info PNone layout None sty st
  = (Raise none_not_subscriptable, None, st).
Proof.
  intros Hdim. destruct (shape_of_3d dsms Hdim) as (ns & nt & nk & Hs).
  unfold plot_dsms_topos, check_arguments. rewrite Hs. simpl.
  unfold window_body, bind, lift. simpl.
  unfold crop_axis1. rewrite Hs. simpl. reflexivity.
Qed.

(** With a one-slot list for [figs] the default window is drawn as
    documented: one figure, each panel showing the mean over the whole time
    axis (2.5 for the sample tensor). *)
Example default_window_with_one_slot :
  let r := plot_dsms_topos ex_tensor ex_info PNone None (Some [None])
             default_style empty_pyplot in
  r.1.1 = Ok (Some [Some 0])
  /\ (map ax_images <$> (fig_axes <$> figures r.2 !! 0))
     = Some (replicate 2
               [{| im_data := {| shape := [2; 2];
                                 data := [Fin 0; Fin (5 # 2); Fin (5 # 2); Fin 0] |};
                   im_cmap := "viridis" |}]).
Proof. cbv zeta. split; vm_compute; reflexivity. Qed.

Lemma C1_witness :
  ndim ex_tensor = 3 /\
  plot_dsms_topos ex_tensor ex_info PNone None None default_style empty_pyplot
  = (Raise none_not_subscriptable, None, empty_pyplot).
Proof.
  split.
  - reflexivity.
  - apply (C1_default_window_without_figs_raises ex_tensor). reflexivity.
Defined.

(** ** Which exceptions a computation can raise *)

Section Avoids.
Context (P : exn -> Prop).

Lemma avoids_ret {A} (a : A) : avoids P (ret a).
Proof. intros st e st' H. discriminate. Qed.

Lemma avoids_raise {A} (e : exn) : ~ P e -> avoids P (@raise A e).
Proof. intros HP st e' st' H. unfold raise in H. by simplify_eq. Qed.

Lemma avoids_lift {A} (r : result A) :
  (forall e, r = Raise e -> ~ P e) -> avoids P (lift r).
Proof. intros Hr st e st' H. unfold lift in H. simplify_eq. by apply Hr. Qed.

Lemma avoids_bind {A B} (m : M A) (k : A -> M B) :
  avoids P m -> (forall a, avoids P (k a)) -> avoids P (bind m k).
Proof.
  intros Hm Hk st e st' H. unfold bind in H.
  destruct (m st) as [[a | e1] st1] eqn:Em.
  - by eapply Hk.
  - simplify_eq. by eapply Hm.
Qed.

Lemma avoids_for_each {A B} (l : list A) (body : A -> B -> M B) (acc : B) :
  (forall x b, avoids P (body x b)) -> avoids P (for_each l body acc).
Proof.
  intros Hbody. revert acc.
  induction l as [| x l IH]; intros acc; simpl.
  - apply avoids_ret.
  - apply avoids_bind; [apply Hbody | intros b; apply IH].
Qed.

Lemma avoids_total {A} (m : M A) :
  (forall st, exists a st', m st = (Ok a, st')) -> avoids P m.
Proof.
  intros Hm st e st' H. destruct (Hm st) as (a & st1 & Ha). congruence.
Qed.

Lemma avoids_update_figure (fig : nat) (g : Figure -> Figure) :
  avoids P (update_figure fig g).
Proof. apply avoids_total. intros st. by eexists _, _. Qed.

Lemma avoids_update_axes (ax : nat * nat) (g : Axes -> Axes) :
  avoids P (update_axes ax g).
Proof. apply avoids_update_figure. Qed.

Lemma avoids_count_axes (fig : nat) : avoids P (count_axes fig).
Proof. apply avoids_total. intros st. by eexists _, _. Qed.

Lemma avoids_plt_figure (size : Q * Q) : avoids P (plt_figure size).
Proof. apply avoids_total. intros st. by eexists _, _. Qed.

Lemma avoids_plt_figure_num (num : nat) : avoids P (plt_figure_num num).
Proof.
  apply avoids_total. intros st. unfold plt_figure_num.
  destruct (managers st !! num); by eexists _, _.
Qed.

Lemma avoids_plt_gcf : avoids P plt_gcf.
Proof.
  apply avoids_total. intros st. unfold plt_gcf.
  destruct (active st) as [num |]; [destruct (managers st !! num) |];
    by eexists _, _.
Qed.

Lemma avoids_add_axes (fig : nat) (a : Axes) : avoids P (add_axes fig a).
Proof.
  unfold add_axes. apply avoids_bind; [apply avoids_count_axes | intros n].
  apply avoids_bind; [apply avoids_update_figure | intros _].
  apply avoids_ret.
Qed.

Lemma avoids_plt_axes (r : rect) : avoids P (plt_axes r).
Proof.
  unfold plt_axes. apply avoids_bind; [apply avoids_plt_gcf | intros fig].
  apply avoids_add_axes.
Qed.

Lemma avoids_plt_show : avoids P plt_show.
Proof.
  unfold plt_show. apply avoids_bind; [apply avoids_plt_gcf | intros fig].
  apply avoids_update_figure.
Qed.

Lemma avoids_plt_colorbar (im : Image) : avoids P (plt_colorbar im).
Proof.
  unfold plt_colorbar. apply avoids_bind; [apply avoids_plt_gcf | intros fig].
  apply avoids_update_figure.
Qed.

Lemma avoids_plt_suptitle (t : string) : avoids P (plt_suptitle t).
Proof.
  unfold plt_suptitle. apply avoids_bind; [apply avoids_plt_gcf | intros fig].
  apply avoids_update_figure.
Qed.
End Avoids.

Create HintDb avoids.
#[local] Hint Resolve avoids_ret avoids_update_figure avoids_update_axes
  avoids_count_axes avoids_plt_figure avoids_plt_figure_num avoids_plt_gcf
  avoids_add_axes avoids_plt_axes avoids_plt_show avoids_plt_colorbar
  avoids_plt_suptitle : avoids.

(** Splits a computation along its binds and loops; what is left are the
    places that can raise. *)
Ltac avoids_step :=
  lazymatch goal with
  | |- avoids _ (bind _ _) => apply avoids_bind; [| intros ?]
  | |- avoids _ (for_each _ _ _) => apply avoids_for_each; intros ? ?
  | |- avoids _ (match ?x with _ => _ end) => destruct x
  | |- avoids _ (if ?b then _ else _) => destruct b
  | |- avoids _ _ => solve [auto with avoids]
  end.

(** A place that raises: the exceptions of the library function [r] are
    enumerated and [tac] shows that each one is outside the class. *)
Ltac avoids_leaf tac :=
  lazymatch goal with
  | |- avoids _ (lift ?r) =>
      apply avoids_lift;
      let e := fresh "e" in let H := fresh "H" in
      intros e H;
      unfold getitem, squareform, crop_axis1, slice_bound, mean_axis1,
        py_getitem, figs_getitem, ceil_div, shape_dsm, squareform in H;
      repeat case_match; simplify_eq; tac
  | |- avoids _ (raise ?e) => apply avoids_raise; tac
  end.

Ltac not_time_type_error :=
  unfold is_time_type_error, time_type_error; simpl; discriminate.

Lemma imshow_avoids_time_error (ax : nat * nat) (X : ndarray) (c : string) :
  avoids is_time_type_error (imshow ax X c).
Proof.
  unfold imshow. repeat avoids_step. avoids_leaf not_time_type_error.
Qed.

Lemma plot_dsms_topo_avoids_time_error
    (dsms : ndarray) (info : Info) (layout : option Layout)
    (fig : option nat) (title : option string) (sty : Style) :
  avoids is_time_type_error (_plot_dsms_topo dsms info layout fig title sty).
Proof.
  unfold _plot_dsms_topo.
  apply avoids_bind; [| intros fig'].
  { destruct fig as [fig |].
    - apply avoids_bind; [| intros num; auto with avoids].
      intros st e st' H. unfold fig_get_number in H.
      destruct (figures st !! fig); simplify_eq. not_time_type_error.
    - repeat avoids_step. }
  apply avoids_bind; [| intros topo].
  { unfold iter_topography_begin. repeat avoids_step. }
  apply avoids_bind; [| intros _].
  { apply avoids_for_each. intros ich []. unfold topo_step.
    apply avoids_bind; [| intros axc].
    { unfold iter_topography_next.
      destruct (layout_pos topo.1 !! ich.2.1).
      - repeat avoids_step.
      - avoids_leaf not_time_type_error. }
    apply avoids_bind; [avoids_leaf not_time_type_error | intros d1].
    apply avoids_bind; [avoids_leaf not_time_type_error | intros d2].
    apply avoids_bind; [apply imshow_avoids_time_error | intros im].
    apply avoids_ret. }
  repeat avoids_step.
Qed.

Lemma window_body_avoids_time_error
    (dsms : ndarray) (info : Info) (layout : option Layout) (sty : Style)
    (i : nat) (l : list pyval) (figs : option (list (option nat))) :
  avoids is_time_type_error
         (window_body dsms info layout sty i (PList l) figs).
Proof.
  unfold window_body.
  apply avoids_bind; [avoids_leaf not_time_type_error | intros lo].
  apply avoids_bind; [avoids_leaf not_time_type_error | intros hi].
  apply avoids_bind; [avoids_leaf not_time_type_error | intros c].
  apply avoids_bind; [avoids_leaf not_time_type_error | intros avg].
  apply avoids_bind; [avoids_leaf not_time_type_error | intros fig_i].
  apply plot_dsms_topo_avoids_time_error.
Qed.

Lemma windows_loop_avoids_time_error
    (dsms : ndarray) (info : Info) (layout : option Layout) (sty : Style)
    (tws : list (nat * pyval)) :
  Forall (fun p => isinstance_list (snd p) = true) tws ->
  forall figs st e figs' st',
    windows_loop dsms info layout sty tws figs st = (Raise e, figs', st') ->
    e <> time_type_error.
Proof.
  induction 1 as [| [i tw] tws Htw _ IH]; intros figs st e figs' st' Hrun.
  - discriminate.
  - simpl in Hrun, Htw. destruct tw as [| | | l |]; try discriminate.
    destruct (window_body dsms info layout sty i (PList l) figs st)
      as [[fig | e1] st1] eqn:Ebody.
    + by eapply IH.
    + simplify_eq. by eapply window_body_avoids_time_error.
Qed.

Lemma enumerate_from_Forall {A} (Q : A -> Prop) (l : list A) (i : nat) :
  Forall Q l -> Forall (fun p => Q (snd p)) (enumerate_from i l).
Proof.
  intros H. revert i. induction H; intros i; simpl; constructor; auto.
Qed.

(** C2 (as amended). For a 3-D tensor and a [time_windows] other than
    [None], the call raises the [TypeError] of the time-window check exactly
    when [time_windows] is not a list all of whose elements are lists.  The
    check looks at nothing else: neither the length of an element nor the
    type of its entries.  When it raises, nothing has been drawn. *)
Theorem C2_time_windows_checked_structurally
    (dsms : ndarray) (info : Info) (time_windows : pyval)
    (layout : option Layout) (figs : option (list (option nat)))
    (sty : Style) (st : pyplot) :
  ndim dsms = 3 ->
  time_windows <> PNone ->
  ((plot_dsms_topos dsms info time_windows layout figs sty st).1.1
     = Raise time_type_error
   <-> is_list_of_lists time_windows = false)
  /\ (is_list_of_lists time_windows = false ->
      plot_dsms_topos dsms info time_windows layout figs sty st
      = (Raise time_type_error, figs, st)).
Proof.
  intros Hdim Hnone.
  assert (Hrej : is_list_of_lists time_windows = false ->
                 plot_dsms_topos dsms info time_windows layout figs sty st
                 = (Raise time_type_error, figs, st)).
  { intros Hno. unfold plot_dsms_topos, check_arguments.
    unfold ndim in Hdim. rewrite Hdim. simpl.
    destruct time_windows as [| | | l |]; try done.
    simpl in Hno. by rewrite Hno. }
  split; [split |]; [| intros Hno; by rewrite Hrej | exact Hrej].
  intros Hraise. destruct (is_list_of_lists time_windows) eqn:Hll; [| done].
  exfalso. destruct time_windows as [| | | l |]; try discriminate.
  simpl in Hll. revert Hraise.
  unfold plot_dsms_topos, check_arguments. unfold ndim in Hdim.
  rewrite Hdim, Hll. simpl.
  assert (Hall : forall i, Forall (fun p => isinstance_list (snd p) = true)
                                  (enumerate_from i l)).
  { intros i. apply (enumerate_from_Forall (fun v => isinstance_list v = true)).
    apply Forall_forall. intros x Hx. apply List.forallb_forall with (x := x) in Hll;
      [done | by apply list_elem_of_In]. }
  destruct figs as [fl |].
  - destruct (length l =? length fl); simpl; [| discriminate].
    destruct (windows_loop _ _ _ _ _ _ _) as [[[u | e] figs'] st'] eqn:Eloop;
      simpl; [discriminate |].
    intros [= ->]. by eapply windows_loop_avoids_time_error.
  - destruct (windows_loop _ _ _ _ _ _ _) as [[[u | e] figs'] st'] eqn:Eloop;
      simpl; [discriminate |].
    intros [= ->]. by eapply windows_loop_avoids_time_error.
Qed.

Lemma C2_witness :
  ((plot_dsms_topos ex_tensor ex_info (PList [PTuple [PInt 0; PInt 1]]) None
      None default_style empty_pyplot).1.1 = Raise time_type_error
   <-> is_list_of_lists (PList [PTuple [PInt 0; PInt 1]]) = false)
  /\ (is_list_of_lists (PList [PTuple [PInt 0; PInt 1]]) = false ->
      plot_dsms_topos ex_tensor ex_info (PList [PTuple [PInt 0; PInt 1]]) None
        None default_style empty_pyplot
      = (Raise time_type_error, None, empty_pyplot)).
Proof.
  apply (C2_time_windows_checked_structurally ex_tensor).
  - reflexivity.
  - discriminate.
Defined.

(** C2, as the specification states it, fails: the list [[0, 1, 2]] is not
    a sequence of 2-element integer pairs, and no [TypeError] is raised; the
    call draws the window [0, 1). *)
Lemma C2_counterexample :
  let time_windows := PList [PList [PInt 0; PInt 1; PInt 2]] in
  let r := plot_dsms_topos ex_tensor ex_info time_windows None None
             default_style empty_pyplot in
  time_windows <> PNone
  /\ is_sequence_of_int_pairs time_windows = false
  /\ is_TypeError r.1.1 = false
  /\ r.1.1 = Ok (Some [Some 0]).
Proof.
  cbv zeta. split; [discriminate |]. split; [reflexivity |].
  split; vm_compute; reflexivity.
Qed.

(** Pairs given as tuples are refused by the same check. *)
Example tuple_pair_is_refused :
  is_sequence_of_int_pairs (PList [PTuple [PInt 0; PInt 1]]) = true
  /\ plot_dsms_topos ex_tensor ex_info (PList [PTuple [PInt 0; PInt 1]]) None
       None default_style empty_pyplot
     = (Raise time_type_error, None, empty_pyplot).
Proof. split; reflexivity. Qed.

(** ** The figures argument of [plot_dsms_topos] *)

Lemma figs_arity_checked_for_given_windows
    (dsms : ndarray) (info : Info) (tws : list pyval)
    (layout : option Layout) (fl : list (option nat))
    (sty : Style) (st : pyplot) :
  ndim dsms = 3 ->
  is_list_of_lists (PList tws) = true ->
  length tws <> length fl ->
  plot_dsms_topos dsms info (PList tws) layout (Some fl) sty st
  = (Raise figs_arity_error, Some fl, st).
Proof.
  intros Hdim Hll Hlen. unfold plot_dsms_topos, check_arguments.
  unfold ndim in Hdim. simpl in Hll. rewrite Hdim, Hll. simpl.
  destruct (Nat.eqb_spec (length tws) (length fl)); [contradiction | done].
Qed.

(** C4. With the default window ([time_windows=None]) the length of [figs]
    is never compared with the number of windows: two figures are supplied
    for the single default window, and instead of the arity error the call
    returns normally, having drawn into the first figure only. *)
Theorem C4_default_window_skips_figs_arity_check :
  let figs := Some [Some 0; Some 1] in
  let r := plot_dsms_topos ex_tensor ex_info PNone None figs default_style
             ex_two_figures in
  is_open ex_two_figures 0 /\ is_open ex_two_figures 1
  /\ r.1.1 = Ok figs
  /\ (images_in <$> figures r.2 !! 0) = Some 2
  /\ (images_in <$> figures r.2 !! 1) = Some 0.
Proof.
  cbv zeta. split; [| split].
  - eexists. split; vm_compute; reflexivity.
  - eexists. split; vm_compute; reflexivity.
  - repeat split; vm_compute; reflexivity.
Qed.

(** With the default window and an empty list of figures the call fails,
    but with an [IndexError], which is not the arity error either. *)
Example default_window_with_no_figure :
  (plot_dsms_topos ex_tensor ex_info PNone None (Some []) default_style
     empty_pyplot).1.1
  = Raise (IndexError "list index out of range").
Proof. reflexivity. Qed.

(** ** Windows: cropping the time axis and averaging *)

Section Blocks.
Context {A : Type} (f : nat -> list A) (L : nat) (d : A).
Hypothesis f_length : forall i, length (f i) = L.

Lemma length_blocks (n : nat) : length (flat_map f (seq 0 n)) = n * L.
Proof.
  induction n as [| n IH]; [reflexivity |].
  rewrite seq_S, flat_map_app, length_app, IH. simpl.
  rewrite length_app, f_length. simpl. lia.
Qed.

(** Entry [j] of block [i] sits at position [i * L + j]. *)
Lemma nth_blocks (n i j : nat) :
  i < n -> j < L ->
  nth (i * L + j) (flat_map f (seq 0 n)) d = nth j (f i) d.
Proof.
  induction n as [| n IH]; intros Hi Hj; [lia |].
  rewrite seq_S, flat_map_app. simpl. rewrite app_nil_r.
  destruct (decide (i < n)) as [Hlt | Hge].
  - rewrite app_nth1; [by apply IH |]. rewrite length_blocks. nia.
  - assert (i = n) as -> by lia.
    rewrite app_nth2; rewrite length_blocks; [| lia].
    f_equal. lia.
Qed.
End Blocks.

Lemma nth_map_seq {A} (g : nat -> A) (n k : nat) (d : A) :
  k < n -> nth k (map g (seq 0 n)) d = g k.
Proof.
  intros Hk. rewrite (nth_indep _ d (g 0)); [| by rewrite length_map, length_seq].
  rewrite (map_nth g (seq 0 n) 0 k). by rewrite seq_nth.
Qed.



(** ** The pyplot primitives on a state focused on one figure *)

Lemma bind_ok {A B} (m : M A) (k : A -> M B) (st st' : pyplot) (a : A) :
  m st = (Ok a, st') -> bind m k st = k a st'.
Proof. intros H. unfold bind. by rewrite H. Qed.

Lemma bind_raise {A B} (m : M A) (k : A -> M B) (st st' : pyplot) (e : exn) :
  m st = (Raise e, st') -> bind m k st = (Raise e, st').
Proof. intros H. unfold bind. by rewrite H. Qed.

Lemma for_each_app {A B} (l1 l2 : list A) (body : A -> B -> M B) (acc : B)
    (st : pyplot) :
  for_each (l1 ++ l2) body acc st
  = bind (for_each l1 body acc) (for_each l2 body) st.
Proof.
  revert acc st. induction l1 as [| x l1 IH]; intros acc st; simpl.
  - reflexivity.
  - unfold bind. destruct (body x acc st) as [[b | e] st1]; [| done].
    by rewrite IH.
Qed.

Lemma for_each_map {A B C} (h : C -> A) (l : list C) (body : A -> B -> M B)
    (acc : B) (st : pyplot) :
  for_each (map h l) body acc st = for_each l (fun c => body (h c)) acc st.
Proof.
  revert acc st. induction l as [| x l IH]; intros acc st; simpl; [done |].
  unfold bind. destruct (body (h x) acc st) as [[b | e] st1]; [apply IH | done].
Qed.

Lemma for_each_nested {A B C} (l : list A) (inner : list C)
    (body : A -> C -> B -> M B) (acc : B) (st : pyplot) :
  for_each l (fun x b => for_each inner (body x) b) acc st
  = for_each (flat_map (fun x => map (pair x) inner) l)
             (fun p => body (fst p) (snd p)) acc st.
Proof.
  revert acc st. induction l as [| x l IH]; intros acc st; simpl; [done |].
  rewrite for_each_app. unfold bind. rewrite for_each_map. simpl.
  destruct (for_each inner _ acc st) as [[b | e] st1]; [apply IH | done].
Qed.

Lemma on_fig_on_fig (st : pyplot) (fig : nat) (f g : Figure) :
  on_fig (on_fig st fig f) fig g = on_fig st fig g.
Proof. unfold on_fig, with_figures. simpl. by rewrite insert_insert_eq. Qed.

Lemma lookup_on_fig (st : pyplot) (fig : nat) (f : Figure) :
  figures (on_fig st fig f) !! fig = Some f.
Proof. unfold on_fig. simpl. apply lookup_insert_eq. Qed.

Lemma lookup_on_fig_ne (st : pyplot) (fig other : nat) (f : Figure) :
  other <> fig -> figures (on_fig st fig f) !! other = figures st !! other.
Proof. intros Hne. unfold on_fig. simpl. by apply lookup_insert_ne. Qed.

Lemma on_fig_id (st : pyplot) (fig : nat) (f : Figure) :
  figures st !! fig = Some f -> on_fig st fig f = st.
Proof.
  intros H. unfold on_fig, with_figures. rewrite insert_id by done.
  by destruct st.
Qed.

Lemma update_figure_on_fig (st : pyplot) (fig : nat) (f : Figure)
    (g : Figure -> Figure) :
  update_figure fig g (on_fig st fig f) = (Ok tt, on_fig st fig (g f)).
Proof.
  unfold update_figure, on_fig, with_figures. simpl.
  by rewrite alter_insert_eq.
Qed.

Lemma update_axes_on_fig (st : pyplot) (fig idx : nat) (f : Figure)
    (g : Axes -> Axes) :
  update_axes (fig, idx) g (on_fig st fig f)
  = (Ok tt, on_fig st fig (set_axes f (alter g idx (fig_axes f)))).
Proof. unfold update_axes. simpl. apply update_figure_on_fig. Qed.

Lemma count_axes_on_fig (st : pyplot) (fig : nat) (f : Figure) :
  count_axes fig (on_fig st fig f) = (Ok (length (fig_axes f)), on_fig st fig f).
Proof. unfold count_axes. by rewrite lookup_on_fig. Qed.

Lemma gcf_current (st : pyplot) (fig : nat) :
  is_current st fig -> plt_gcf st = (Ok fig, st).
Proof. intros (num & Ha & Hm). unfold plt_gcf. by rewrite Ha, Hm. Qed.

Lemma is_current_on_fig (st : pyplot) (fig fig' : nat) (f : Figure) :
  is_current st fig' -> is_current (on_fig st fig f) fig'.
Proof. intros (num & Ha & Hm). by exists num. Qed.

Lemma is_current_opened (st : pyplot) (num : nat) :
  is_current (opened st num) (next_id st).
Proof. exists num. split; [done |]. simpl. apply lookup_insert_eq. Qed.

Lemma plt_figure_opened (size : Q * Q) (st : pyplot) :
  plt_figure size st
  = (Ok (next_id st),
     on_fig (opened st (next_num (managers st))) (next_id st)
            (blank_figure (next_num (managers st)) size)).
Proof. reflexivity. Qed.

Lemma imshow_on_fig (st : pyplot) (fig idx : nat) (f : Figure)
    (X : ndarray) (c : string) :
  image_shape_ok (shape X) = true ->
  imshow (fig, idx) X c (on_fig st fig f)
  = (Ok {| im_data := X; im_cmap := c |},
     on_fig st fig
       (set_axes f (alter (fun a => add_image a {| im_data := X; im_cmap := c |})
                          idx (fig_axes f)))).
Proof.
  intros Hok. unfold imshow. rewrite Hok.
  by erewrite bind_ok by apply update_axes_on_fig.
Qed.

(** ** The grid of [plot_dsms] *)

Lemma names_check_passes (l : list ndarray) (names : option (list string)) :
  match names with Some ns => length ns = length l | None => True end ->
  match match names_of names with
        | OneName s => Some [s]
        | NameList l0 => Some l0
        | NoNames => None
        end with
  | Some ns => negb (length ns =? length l)
  | None => false
  end = false.
Proof.
  intros Hnames. destruct names as [ns |]; simpl; [| done].
  by rewrite Hnames, Nat.eqb_refl.
Qed.

Lemma plot_dsms_promoted (dsms : dsms_arg) (names : names_arg)
    (items : option (list string)) (n_rows : Z) (c : string)
    (title : option string) :
  plot_dsms dsms names items n_rows c title
  = plot_dsms (DSMList (dsms_seq dsms)) (names_of (names_seq names)) items
              n_rows c title.
Proof. by destruct dsms, names. Qed.

(** [ceil_div] is the ceiling of the quotient. *)
Lemma ceil_div_spec (k : nat) (r : Z) :
  (0 < r)%Z ->
  exists c : nat,
    ceil_div k r = Ok (Z.of_nat c)
    /\ (Z.of_nat k <= Z.of_nat c * r)%Z
    /\ (Z.of_nat c * r < Z.of_nat k + r)%Z.
Proof.
  intros Hr. unfold ceil_div. destruct (Z.eqb_spec r 0); [lia |].
  pose proof (Z.div_mod (- Z.of_nat k) r ltac:(lia)) as Hdm.
  pose proof (Z.mod_pos_bound (- Z.of_nat k) r Hr) as Hmod.
  assert (0 <= - (- Z.of_nat k / r))%Z as Hnonneg by nia.
  exists (Z.to_nat (- (- Z.of_nat k / r))). rewrite Z2Nat.id by done.
  split; [done |]. nia.
Qed.

Lemma cell_index (C i : nat) :
  0 < C -> i / C * C + (i `mod` C) `mod` C = i.
Proof.
  intros HC. rewrite Nat.Div0.mod_mod.
  pose proof (Nat.div_mod_eq i C). lia.
Qed.

(** Row-major order: the cells of an [R] x [C] grid, row after row, are
    the cells [(i / C, i mod C)] for [i] from 0. *)
Lemma grid_row_major {A} (g : nat -> nat -> A) (R C : nat) :
  flat_map (fun row => map (g row) (seq 0 C)) (seq 0 R)
  = map (fun i => g (i / C) (i `mod` C)) (seq 0 (R * C)).
Proof.
  induction R as [| R IH]; [reflexivity |].
  rewrite seq_S, flat_map_app, IH. simpl. rewrite app_nil_r.
  replace (C + R * C) with (R * C + C) by lia.
  rewrite seq_app, map_app. f_equal. simpl.
  replace (seq (R * C) C) with (map (Nat.add (R * C)) (seq 0 C)).
  2: { rewrite <- (Nat.add_0_r (R * C)) at 2. apply (fmap_add_seq (R * C) 0 C). }
  rewrite map_map. apply map_ext_in. intros j Hj. apply in_seq in Hj.
  f_equal.
  - apply (Nat.div_unique _ _ _ j); lia.
  - apply (Nat.mod_unique _ _ R j); lia.
Qed.

Section GridLoop.
Context (dsms : list ndarray) (names : option (list string)) (c : string).
Context (fig C : nat).
Hypothesis C_pos : 0 < C.
Hypothesis names_ok :
  match names with Some ns => length ns = length dsms | None => True end.

(** One pass of the loop body on a cell whose DSM, if it has one, can be
    drawn. *)
Lemma plot_dsms_cell_ok (i : nat) (im : option Image) (st : pyplot)
    (f : Figure) :
  (forall d, dsms !! i = Some d -> drawable d = true) ->
  plot_dsms_cell dsms names c (fig, 0) C (i / C) (i `mod` C) im
                 (on_fig st fig f)
  = (Ok (cell_image dsms c i im),
     on_fig st fig
       (set_axes f (alter (cell_update dsms names c i) i (fig_axes f)))).
Proof.
  intros Hdraw. unfold plot_dsms_cell, grid_at. simpl.
  rewrite (cell_index C i C_pos).
  pose proof (Nat.div_mod_eq i C) as Hi.
  replace (i / C * C + i `mod` C) with i by lia.
  unfold cell_image, cell_update.
  destruct (dsms !! i) as [d |] eqn:Hd.
  - specialize (Hdraw d eq_refl). unfold drawable in Hdraw.
    destruct (shape_dsm d) as [m | e] eqn:Hm; [| discriminate].
    unfold bind at 1. unfold lift at 1.
    erewrite bind_ok by (by apply imshow_on_fig).
    destruct names as [ns |]; simpl.
    + destruct (ns !! i) as [name |] eqn:Hname.
      * erewrite bind_ok by apply update_axes_on_fig.
        unfold ret. do 2 f_equal. unfold set_axes. simpl. f_equal.
        by rewrite list_alter_alter_eq.
      * apply lookup_ge_None in Hname. apply lookup_lt_Some in Hd. lia.
    + reflexivity.
  - erewrite bind_ok by apply update_axes_on_fig. reflexivity.
Qed.

(** A cell whose DSM is refused: the exception leaves the loop body before
    anything is drawn in the cell. *)
Lemma plot_dsms_cell_raises (i : nat) (d : ndarray) (e : exn)
    (im : option Image) (st : pyplot) :
  dsms !! i = Some d -> shape_dsm d = Raise e ->
  plot_dsms_cell dsms names c (fig, 0) C (i / C) (i `mod` C) im st
  = (Raise e, st).
Proof.
  intros Hd He. unfold plot_dsms_cell.
  rewrite (cell_index C i C_pos), Hd.
  unfold bind, lift. by rewrite He.
Qed.

(** The loop over the cells [j, j + n) when each of their DSMs can be
    drawn. *)
Lemma grid_loop_ok (n : nat) :
  forall (j : nat) (im : option Image) (st : pyplot) (f : Figure),
    (forall i d, j <= i < j + n -> dsms !! i = Some d -> drawable d = true) ->
    for_each (seq j n)
      (fun i im => plot_dsms_cell dsms names c (fig, 0) C (i / C) (i `mod` C) im)
      im (on_fig st fig f)
    = (Ok (foldl (fun im i => cell_image dsms c i im) im (seq j n)),
       on_fig st fig
         (set_axes f
            (foldl (fun axs i => alter (cell_update dsms names c i) i axs)
                   (fig_axes f) (seq j n)))).
Proof.
  induction n as [| n IH]; intros j im st f Hdraw.
  - simpl. unfold ret. do 2 f_equal. by destruct f.
  - simpl. erewrite bind_ok.
    2: { apply plot_dsms_cell_ok. intros d Hd. apply (Hdraw j d); [lia | done]. }
    rewrite IH; [reflexivity |].
    intros i d Hi Hd. apply (Hdraw i d); [lia | done].
Qed.
End GridLoop.

(** What the loop leaves in the panels and in [im]. *)
Lemma lookup_foldl_alter {A} (u : nat -> A -> A) (n : nat) :
  forall (j : nat) (l : list A) (i : nat),
    foldl (fun axs i => alter (u i) i axs) l (seq j n) !! i
    = if decide (j <= i < j + n) then u i <$> l !! i else l !! i.
Proof.
  induction n as [| n IH]; intros j l i; simpl.
  - case_decide; [lia | done].
  - rewrite IH. destruct (decide (i = j)) as [-> | Hne].
    + rewrite list_lookup_alter_eq. repeat case_decide; try lia; done.
    + rewrite list_lookup_alter_ne by done. repeat case_decide; try lia; done.
Qed.

Lemma length_foldl_alter {A} (u : nat -> A -> A) (l : list A)
    (idxs : list nat) :
  length (foldl (fun axs i => alter (u i) i axs) l idxs) = length l.
Proof.
  revert l. induction idxs as [| i idxs IH]; intros l; simpl; [done |].
  by rewrite IH, length_alter.
Qed.

Lemma cell_image_hidden (dsms : list ndarray) (c : string) (n : nat) :
  forall (j : nat) (im : option Image),
    length dsms <= j ->
    foldl (fun im i => cell_image dsms c i im) im (seq j n) = im.
Proof.
  induction n as [| n IH]; intros j im Hj; simpl; [done |].
  rewrite IH by lia. unfold cell_image.
  by rewrite (proj2 (lookup_ge_None dsms j)) by lia.
Qed.

(** After the loop, [im] is the image of the last DSM. *)
Lemma cell_image_last (dsms : list ndarray) (c : string) (n : nat)
    (d : ndarray) (m : ndarray) (im : option Image) :
  length dsms <= n ->
  last dsms = Some d -> shape_dsm d = Ok m ->
  foldl (fun im i => cell_image dsms c i im) im (seq 0 n)
  = Some {| im_data := m; im_cmap := c |}.
Proof.
  intros Hn Hlast Hm. apply last_Some in Hlast as [pre ->].
  rewrite length_app in Hn. simpl in Hn.
  replace n with (length pre + (1 + (n - length pre - 1))) by lia.
  rewrite seq_app, foldl_app. simpl.
  rewrite cell_image_hidden by (rewrite length_app; simpl; lia).
  unfold cell_image at 1.
  rewrite lookup_app_r by lia. rewrite Nat.sub_diag. simpl. by rewrite Hm.
Qed.

(** [plot_dsms] up to its loop, for consistent names and a positive
    number of rows: a new figure with a blank grid, then the loop over the
    cells in row-major order. *)
Lemma plot_dsms_prologue (l : list ndarray) (names : option (list string))
    (items : option (list string)) (R C : nat) (c : string)
    (title : option string) (st : pyplot) :
  match names with Some ns => length ns = length l | None => True end ->
  0 < R -> 0 < C ->
  ceil_div (length l) (Z.of_nat R) = Ok (Z.of_nat C) ->
  plot_dsms (DSMList l) (names_of names) items (Z.of_nat R) c title st
  = bind (for_each (seq 0 (R * C))
            (fun i im =>
               plot_dsms_cell l names c (next_id st, 0) C (i / C) (i `mod` C) im)
            None)
         (plot_dsms_finish title (next_id st))
         (on_fig (opened st (next_num (managers st))) (next_id st)
                 (grid_figure st R C)).
Proof.
  intros Hnames HR HC Hceil. unfold plot_dsms.
  assert (match match names_of names with
                | OneName s => Some [s]
                | NameList l0 => Some l0
                | NoNames => None
                end with
          | Some ns => negb (length ns =? length l)
          | None => false
          end = false) as ->.
  { destruct names as [ns |]; simpl; [| done]. by rewrite Hnames, Nat.eqb_refl. }
  rewrite Hceil. unfold bind at 1. unfold lift at 1.
  erewrite bind_ok by apply plt_figure_opened.
  erewrite bind_ok.
  2: { unfold fig_subplots.
       destruct (Z.leb_spec (Z.of_nat R) 0); [lia |].
       destruct (Z.leb_spec (Z.of_nat C) 0); [lia |].
       erewrite bind_ok by apply count_axes_on_fig.
       erewrite bind_ok by apply update_figure_on_fig.
       reflexivity. }
  rewrite !Nat2Z.id. simpl.
  unfold bind at 1. unfold bind at 4.
  rewrite for_each_nested, (grid_row_major pair), for_each_map. simpl.
  replace (match names_of names with
           | OneName s => Some [s]
           | NameList l0 => Some l0
           | NoNames => None
           end) with names by (by destruct names).
  reflexivity.
Qed.

Lemma blank_grid_lookup (R C i : nat) :
  i < R * C ->
  blank_grid R C !! i = Some (blank_axes (GridCell (i / C) (i `mod` C))).
Proof.
  intros Hi. unfold blank_grid.
  rewrite (grid_row_major (fun row col => blank_axes (GridCell row col))).
  change (map ?h ?l) with (h <$> l). rewrite list_lookup_fmap.
  by rewrite lookup_seq_lt.
Qed.

Lemma length_blank_grid (R C : nat) : length (blank_grid R C) = R * C.
Proof.
  unfold blank_grid. apply length_blocks. intros i.
  by rewrite length_map, length_seq.
Qed.

(** Panel [i] after the loop has passed over the cells below [n]. *)
Lemma drawn_grid_lookup (dsms : list ndarray) (names : option (list string))
    (c : string) (R C n i : nat) :
  i < R * C ->
  drawn_grid dsms names c R C n !! i
  = Some (if decide (i < n)
          then cell_update dsms names c i
                 (blank_axes (GridCell (i / C) (i `mod` C)))
          else blank_axes (GridCell (i / C) (i `mod` C))).
Proof.
  intros Hi. unfold drawn_grid.
  rewrite lookup_foldl_alter, blank_grid_lookup by done.
  repeat case_decide; try lia; done.
Qed.

Lemma length_drawn_grid (dsms : list ndarray) (names : option (list string))
    (c : string) (R C n : nat) :
  length (drawn_grid dsms names c R C n) = R * C.
Proof. unfold drawn_grid. by rewrite length_foldl_alter, length_blank_grid. Qed.

Lemma drawn_grid_full (dsms : list ndarray) (names : option (list string))
    (c : string) (R C : nat) :
  drawn_grid dsms names c R C (R * C)
  = map (fun i => cell_update dsms names c i
                    (blank_axes (GridCell (i / C) (i `mod` C))))
        (seq 0 (R * C)).
Proof.
  apply list_eq. intros i.
  change (map ?h ?l) with (h <$> l). rewrite list_lookup_fmap.
  destruct (decide (i < R * C)) as [Hi | Hi].
  - rewrite drawn_grid_lookup, lookup_seq_lt by done.
    by rewrite decide_True by done.
  - rewrite lookup_seq_ge by lia.
    apply lookup_ge_None. rewrite length_drawn_grid. lia.
Qed.

Lemma count_visible (h : nat -> Axes) (N : nat) :
  forall k, k <= N ->
    (forall i, i < N -> (ax_visible (h i) = true <-> i < k)) ->
    length (filter (fun a => ax_visible a = true) (map h (seq 0 N))) = k.
Proof.
  induction N as [| N IH]; intros k Hk Hvis.
  - simpl. lia.
  - rewrite seq_S, map_app, filter_app, length_app. simpl.
    destruct (decide (k <= N)) as [Hle | Hgt].
    + rewrite (IH k Hle) by (intros i Hi; apply Hvis; lia).
      rewrite filter_cons_False; [simpl; lia |].
      intros Hv. apply Hvis in Hv; lia.
    + assert (k = S N) as -> by lia.
      rewrite (IH N) by (done || intros i Hi; rewrite Hvis by lia; lia).
      rewrite filter_cons_True; [simpl; lia |].
      apply Hvis; lia.
Qed.

Lemma cell_update_visible (dsms : list ndarray) (names : option (list string))
    (c : string) (i : nat) (p : axpos) :
  ax_visible (cell_update dsms names c i (blank_axes p)) = true
  <-> i < length dsms.
Proof.
  unfold cell_update. destruct (dsms !! i) as [d |] eqn:Hd.
  - apply lookup_lt_Some in Hd. split; [done | intros _].
    destruct (shape_dsm d); [| done].
    unfold drawn_cell. by destruct (names ≫= _).
  - apply lookup_ge_None in Hd. simpl. split; [done | lia].
Qed.

Lemma plot_dsms_finish_ok (title : option string) (fig : nat) (im : Image)
    (st : pyplot) (f : Figure) :
  is_current st fig ->
  plot_dsms_finish title fig (Some im) (on_fig st fig f)
  = (Ok fig, on_fig st fig (with_suptitle title (add_colorbar f im))).
Proof.
  intros Hcur. unfold plot_dsms_finish. unfold bind at 1. unfold ret at 1.
  erewrite bind_ok.
  2: { unfold plt_colorbar.
       erewrite bind_ok by (by apply gcf_current, is_current_on_fig).
       apply update_figure_on_fig. }
  destruct title as [t |]; simpl.
  - erewrite bind_ok; [reflexivity |].
    unfold plt_suptitle.
    erewrite bind_ok by (by apply gcf_current, is_current_on_fig).
    apply update_figure_on_fig.
  - reflexivity.
Qed.

(** A complete run of [plot_dsms] on DSMs that can all be drawn. *)
Lemma plot_dsms_run (l : list ndarray) (names : option (list string))
    (items : option (list string)) (R C : nat) (c : string)
    (title : option string) (st : pyplot) (d m : ndarray) :
  match names with Some ns => length ns = length l | None => True end ->
  0 < R -> 0 < C -> length l <= R * C ->
  ceil_div (length l) (Z.of_nat R) = Ok (Z.of_nat C) ->
  Forall (fun d => drawable d = true) l ->
  last l = Some d -> shape_dsm d = Ok m ->
  plot_dsms (DSMList l) (names_of names) items (Z.of_nat R) c title st
  = (Ok (next_id st),
     on_fig (opened st (next_num (managers st))) (next_id st)
       (with_suptitle title
          (add_colorbar
             (set_axes (grid_figure st R C) (drawn_grid l names c R C (R * C)))
             {| im_data := m; im_cmap := c |}))).
Proof.
  intros Hnames HR HC Hfit Hceil Hdraw Hlast Hm.
  rewrite (plot_dsms_prologue l names items R C) by done.
  erewrite bind_ok.
  2: { apply grid_loop_ok; [done | done |].
       intros i d' _ Hd'. rewrite Forall_forall in Hdraw. apply Hdraw.
       by eapply list_elem_of_lookup_2. }
  rewrite (cell_image_last l c (R * C) d m) by done.
  rewrite plot_dsms_finish_ok by apply is_current_opened.
  reflexivity.
Qed.

(** C6. For [k >= 1] DSMs that can be drawn and [r >= 1] rows, [plot_dsms]
    returns a new figure whose grid has [ceil(k / r)] columns; in row-major
    order its first [k] panels are visible and each shows the heatmap of
    its DSM, and every other panel is hidden and empty, so exactly [k]
    panels are visible. *)
Theorem C6_grid_layout
    (dsms : dsms_arg) (names : names_arg) (items : option (list string))
    (n_rows : Z) (c : string) (title : option string) (st : pyplot) :
  let l := dsms_seq dsms in
  let k := length l in
  let R := Z.to_nat n_rows in
  (0 < n_rows)%Z ->
  0 < k ->
  match names_seq names with Some ns => length ns = k | None => True end ->
  Forall (fun d => drawable d = true) l ->
  exists (n_cols : nat) (st' : pyplot) (f : Figure),
    plot_dsms dsms names items n_rows c title st = (Ok (next_id st), st')
    /\ figures st' !! next_id st = Some f
    /\ k <= n_cols * R < k + R
    /\ length (fig_axes f) = R * n_cols
    /\ (forall i, i < R * n_cols ->
          exists a,
            fig_axes f !! i = Some a
            /\ ax_pos a = GridCell (i / n_cols) (i `mod` n_cols)
            /\ match l !! i with
               | Some d =>
                   ax_visible a = true
                   /\ exists m, shape_dsm d = Ok m
                        /\ ax_images a = [{| im_data := m; im_cmap := c |}]
               | None => ax_visible a = false /\ ax_images a = []
               end)
    /\ length (filter (fun a => ax_visible a = true) (fig_axes f)) = k.
Proof.
  intros l k R Hrows Hk Hnames Hdraw.
  destruct (ceil_div_spec k n_rows Hrows) as (C & Hceil & Hlo & Hhi).
  assert (HR : n_rows = Z.of_nat R) by (unfold R; lia).
  assert (Hfit : k <= C * R < k + R) by nia.
  assert (HC : 0 < C) by nia.
  destruct (last l) as [d |] eqn:Hlast.
  2: { apply last_None in Hlast. unfold k in Hk. rewrite Hlast in Hk.
       simpl in Hk. lia. }
  assert (drawable d = true) as Hd.
  { rewrite Forall_forall in Hdraw. apply Hdraw. by eapply last_Some_elem_of. }
  unfold drawable in Hd. destruct (shape_dsm d) as [m | e] eqn:Hm; [| done].
  exists C. eexists. eexists.
  split.
  { rewrite plot_dsms_promoted. fold l. rewrite HR.
    apply (plot_dsms_run l (names_seq names) items R C c title st d m);
      try done; [lia | lia | by rewrite <- HR]. }
  split; [apply lookup_on_fig |].
  split; [exact Hfit |].
  assert (Haxes : forall t im f0 g,
            fig_axes (with_suptitle t (add_colorbar (set_axes f0 g) im)) = g).
  { intros t im f0 g. by destruct t. }
  rewrite Haxes.
  split; [apply length_drawn_grid |].
  split.
  - intros i Hi. eexists. split; [by apply drawn_grid_lookup |].
    rewrite decide_True by done. unfold cell_update.
    destruct (l !! i) as [di |] eqn:Hdi.
    + assert (drawable di = true) as Hok.
      { rewrite Forall_forall in Hdraw. apply Hdraw.
        by eapply list_elem_of_lookup_2. }
      unfold drawable in Hok.
      destruct (shape_dsm di) as [mi | ei]; [| done].
      unfold drawn_cell. destruct (names_seq names ≫= _); simpl; eauto.
    + simpl. done.
  - rewrite drawn_grid_full. apply count_visible; [lia |].
    intros i Hi. apply cell_update_visible.
Qed.

Lemma C6_witness :
  exists (n_cols : nat) (st' : pyplot) (f : Figure),
    plot_dsms (DSMList [ex_dsm; ex_dsm; ex_dsm]) NoNames None 2 "viridis" None
              empty_pyplot = (Ok 0, st')
    /\ figures st' !! 0 = Some f
    /\ n_cols = 2
    /\ length (fig_axes f) = 4
    /\ length (filter (fun a => ax_visible a = true) (fig_axes f)) = 3.
Proof.
  destruct (C6_grid_layout (DSMList [ex_dsm; ex_dsm; ex_dsm]) NoNames None 2
              "viridis" None empty_pyplot)
    as (n_cols & st' & f & Hrun & Hf & Hcols & Hlen & _ & Hvis).
  - lia.
  - simpl. lia.
  - exact I.
  - repeat constructor.
  - simpl in Hcols. assert (n_cols = 2) as -> by lia.
    exists 2, st', f. repeat split; assumption.
Defined.

(** ** The errors of [plot_dsms] *)

Lemma shape_dsm_refuses (d : ndarray) :
  2 < ndim d -> shape_dsm d = Raise (ShapeError_dsm (shape d)).
Proof.
  intros Hd. unfold shape_dsm.
  destruct (Nat.eqb_spec (ndim d) 1); [lia |].
  destruct (Nat.ltb_spec 2 (ndim d)); [done | lia].
Qed.

(** C3 (as amended). The shape error of a DSM with more than two
    dimensions is raised when the loop reaches the cell of that DSM: the
    figure and its grid exist by then, and every cell before it (in
    row-major order) has been drawn; the cells from it onwards are
    untouched, and no colorbar is attached. *)
Theorem C3_shape_error_raised_at_its_cell
    (dsms : dsms_arg) (names : names_arg) (items : option (list string))
    (n_rows : Z) (c : string) (title : option string) (st : pyplot)
    (pre post : list ndarray) (bad : ndarray) :
  dsms_seq dsms = pre ++ bad :: post ->
  2 < ndim bad ->
  Forall (fun d => drawable d = true) pre ->
  (0 < n_rows)%Z ->
  match names_seq names with
  | Some ns => length ns = length (dsms_seq dsms)
  | None => True
  end ->
  exists (st' : pyplot) (f : Figure),
    plot_dsms dsms names items n_rows c title st
    = (Raise (ShapeError_dsm (shape bad)), st')
    /\ figures st' !! next_id st = Some f
    /\ length pre < length (fig_axes f)
    /\ (forall i a, fig_axes f !! i = Some a ->
          length (ax_images a) = if decide (i < length pre) then 1 else 0)
    /\ fig_colorbars f = [].
Proof.
  intros Hseq Hbad Hpre Hrows Hnames.
  set (l := dsms_seq dsms) in *. set (R := Z.to_nat n_rows).
  destruct (ceil_div_spec (length l) n_rows Hrows) as (C & Hceil & Hlo & Hhi).
  assert (HR : n_rows = Z.of_nat R) by (unfold R; lia).
  assert (Hlen : length l = length pre + S (length post)).
  { rewrite Hseq, length_app. reflexivity. }
  assert (HC : 0 < C) by nia.
  assert (Hj : length pre < R * C) by nia.
  assert (Hlookup : l !! length pre = Some bad).
  { rewrite Hseq. by rewrite list_lookup_middle. }
  exists (on_fig (opened st (next_num (managers st))) (next_id st)
            (set_axes (grid_figure st R C)
                      (drawn_grid l (names_seq names) c R C (length pre)))).
  eexists. split.
  { rewrite plot_dsms_promoted. fold l. rewrite HR in Hceil |- *.
    rewrite (plot_dsms_prologue l (names_seq names) items R C) by (done || lia).
    replace (R * C) with (length pre + S (R * C - length pre - 1)) by lia.
    rewrite seq_app. apply bind_raise.
    rewrite for_each_app. erewrite bind_ok.
    2: { apply grid_loop_ok; [done | done |].
         intros i d Hi Hd. rewrite Forall_forall in Hpre. apply Hpre.
         rewrite Hseq in Hd. rewrite lookup_app_l in Hd by lia.
         by eapply list_elem_of_lookup_2. }
    simpl. apply bind_raise.
    apply plot_dsms_cell_raises with (d := bad); [done | done |].
    by apply shape_dsm_refuses. }
  split; [apply lookup_on_fig |]. simpl.
  split; [by rewrite length_drawn_grid |].
  split; [| reflexivity].
  intros i a Ha.
  assert (Hi : i < R * C).
  { apply lookup_lt_Some in Ha. by rewrite length_drawn_grid in Ha. }
  rewrite drawn_grid_lookup in Ha by done. injection Ha as <-.
  case_decide as Hdone; [| reflexivity].
  unfold cell_update.
  destruct (l !! i) as [d |] eqn:Hd.
  - assert (drawable d = true) as Hok.
    { rewrite Forall_forall in Hpre. apply Hpre.
      rewrite Hseq in Hd. rewrite lookup_app_l in Hd by lia.
      by eapply list_elem_of_lookup_2. }
    unfold drawable in Hok. destruct (shape_dsm d); [| done].
    unfold drawn_cell. by destruct (names_seq names ≫= _).
  - apply lookup_ge_None in Hd. lia.
Qed.

Lemma C3_witness :
  exists (st' : pyplot) (f : Figure),
    plot_dsms (DSMList [ex_dsm; ex_dsm_3d; ex_dsm]) NoNames None 1 "viridis"
              None empty_pyplot
    = (Raise (ShapeError_dsm [1; 1; 1]), st')
    /\ figures st' !! 0 = Some f
    /\ 1 < length (fig_axes f)
    /\ (forall i a, fig_axes f !! i = Some a ->
          length (ax_images a) = if decide (i < 1) then 1 else 0)
    /\ fig_colorbars f = [].
Proof.
  apply (C3_shape_error_raised_at_its_cell
           (DSMList [ex_dsm; ex_dsm_3d; ex_dsm]) NoNames None 1 "viridis" None
           empty_pyplot [ex_dsm] [ex_dsm] ex_dsm_3d).
  - reflexivity.
  - unfold ndim. simpl. lia.
  - repeat constructor.
  - lia.
  - exact I.
Defined.

(** C3, as the specification states it, fails: with a condensed DSM first
    and a 3-D array second, the shape error is raised after the first cell
    has been drawn. *)
Lemma C3_counterexample :
  let r := plot_dsms (DSMList [ex_dsm; ex_dsm_3d]) NoNames None 1 "viridis"
             None empty_pyplot in
  r.1 = Raise (ShapeError_dsm (shape ex_dsm_3d))
  /\ images_drawn empty_pyplot = 0
  /\ images_drawn r.2 = 1.
Proof. cbv zeta. repeat split; vm_compute; reflexivity. Qed.

(** C10 (as amended). For an empty sequence of DSMs (names absent or
    empty, a positive number of rows) [plot_dsms] fails and returns no
    figure: the number of columns is 0, and the creation of the grid raises
    the [ValueError] of the plotting toolkit, one statement after the
    figure has been created.  The figure is left open, without any panel;
    the loop and the colorbar are not reached.  The exception is neither
    of the errors that [plot_dsms] raises itself. *)
Theorem C10_empty_sequence_fails_at_grid
    (names : names_arg) (items : option (list string)) (n_rows : Z)
    (c : string) (title : option string) (st : pyplot) :
  (0 < n_rows)%Z ->
  match names_seq names with Some ns => ns = [] | None => True end ->
  exists (st' : pyplot) (f : Figure),
    plot_dsms (DSMList []) names items n_rows c title st
    = (Raise (ValueError "Number of columns must be a positive integer, not 0"),
       st')
    /\ figures st' !! next_id st = Some f
    /\ is_open st' (next_id st)
    /\ (forall other, other <> next_id st ->
          figures st' !! other = figures st !! other)
    /\ fig_axes f = []
    /\ fig_colorbars f = []
    /\ fig_suptitle f = None
    /\ ~ is_names_arity_error
           (ValueError "Number of columns must be a positive integer, not 0")
    /\ (forall s, ValueError "Number of columns must be a positive integer, not 0"
                  <> ShapeError_dsm s).
Proof.
  intros Hrows Hnames.
  exists (on_fig (opened st (next_num (managers st))) (next_id st)
            (blank_figure (next_num (managers st))
               (inject_Z (2 * 0), inject_Z (2 * n_rows)))).
  eexists. split.
  { rewrite (plot_dsms_promoted (DSMList [])). simpl dsms_seq.
    unfold plot_dsms. rewrite names_check_passes.
    2: { destruct (names_seq names) as [ns |]; [by subst | done]. }
    unfold ceil_div. destruct (Z.eqb_spec n_rows 0); [lia |].
    simpl length. replace (- (- Z.of_nat 0 / n_rows))%Z with 0%Z
      by (simpl; by rewrite Z.div_0_l by lia).
    unfold bind at 1. unfold lift at 1.
    erewrite bind_ok by apply plt_figure_opened.
    apply bind_raise. unfold fig_subplots.
    destruct (Z.leb_spec n_rows 0); [lia | reflexivity]. }
  split; [apply lookup_on_fig |].
  split.
  { eexists. split; [apply lookup_on_fig |]. simpl. apply lookup_insert_eq. }
  split; [intros other Hne; by rewrite lookup_on_fig_ne |].
  split; [reflexivity |]. split; [reflexivity |]. split; [reflexivity |].
  split.
  - intros (a & b & H). unfold ArityError_names, arity_message in H.
    simpl in H. discriminate.
  - intros s H. unfold ShapeError_dsm, shape_message in H.
    simpl in H. discriminate.
Qed.

Lemma C10_witness :
  exists (st' : pyplot) (f : Figure),
    plot_dsms (DSMList []) NoNames None 1 "viridis" None empty_pyplot
    = (Raise (ValueError "Number of columns must be a positive integer, not 0"),
       st')
    /\ figures st' !! 0 = Some f
    /\ fig_axes f = []
    /\ fig_colorbars f = [].
Proof.
  destruct (C10_empty_sequence_fails_at_grid NoNames None 1 "viridis" None
              empty_pyplot)
    as (st' & f & Hrun & Hf & _ & _ & Haxes & Hbar & _).
  - lia.
  - exact I.
  - exists st', f. repeat split; assumption.
Defined.

(** C10, as the claim states it, fails: for [dsms=[]] the statement that
    attaches the colorbar is never reached, and the exception is not the
    [UnboundLocalError] of the unbound [im] but the [ValueError] of the
    grid creation. *)
Lemma C10_counterexample :
  let r := plot_dsms (DSMList []) NoNames None 1 "viridis" None empty_pyplot in
  r.1 <> Raise im_unbound
  /\ r.1 = Raise (ValueError
                    "Number of columns must be a positive integer, not 0")
  /\ images_drawn r.2 = 0.
Proof. cbv zeta. split; [discriminate |]. split; vm_compute; reflexivity. Qed.

Ltac not_names_arity_error :=
  let a := fresh "a" in let b := fresh "b" in let H := fresh "H" in
  intros (a & b & H);
  unfold ArityError_names, arity_message, shape_message in H;
  simpl in H; discriminate.

Lemma plot_dsms_cell_avoids_arity_error
    (dsms : list ndarray) (names : option (list string)) (c : string)
    (ax : nat * nat) (n_cols row col : nat) (im : option Image) :
  avoids is_names_arity_error
         (plot_dsms_cell dsms names c ax n_cols row col im).
Proof.
  unfold plot_dsms_cell.
  destruct (dsms !! _) as [d |]; [| repeat avoids_step].
  apply avoids_bind; [avoids_leaf not_names_arity_error | intros m].
  apply avoids_bind; [| intros im'].
  { unfold imshow. destruct (image_shape_ok _); [repeat avoids_step |].
    avoids_leaf not_names_arity_error. }
  apply avoids_bind; [| intros _; apply avoids_ret].
  destruct names as [ns |]; [| apply avoids_ret].
  destruct (ns !! _); [apply avoids_update_axes |].
  avoids_leaf not_names_arity_error.
Qed.

(** Once the names check has passed, nothing else in [plot_dsms] raises its
    exception. *)
Lemma plot_dsms_avoids_arity_error
    (l : list ndarray) (names : option (list string))
    (items : option (list string)) (n_rows : Z) (c : string)
    (title : option string) :
  match names with Some ns => length ns = length l | None => True end ->
  avoids is_names_arity_error
         (plot_dsms (DSMList l) (names_of names) items n_rows c title).
Proof.
  intros Hnames. unfold plot_dsms.
  assert (match match names_of names with
                | OneName s => Some [s]
                | NameList l0 => Some l0
                | NoNames => None
                end with
          | Some ns => negb (length ns =? length l)
          | None => false
          end = false) as ->.
  { destruct names as [ns |]; simpl; [| done]. by rewrite Hnames, Nat.eqb_refl. }
  apply avoids_bind; [avoids_leaf not_names_arity_error | intros n_cols].
  apply avoids_bind; [auto with avoids | intros fig].
  apply avoids_bind; [| intros ax].
  { unfold fig_subplots.
    destruct (_ <=? _)%Z; [avoids_leaf not_names_arity_error |].
    destruct (_ <=? _)%Z; [avoids_leaf not_names_arity_error |].
    repeat avoids_step. }
  apply avoids_bind; [| intros im].
  { apply avoids_for_each. intros row im.
    apply avoids_for_each. intros col im'.
    apply plot_dsms_cell_avoids_arity_error. }
  apply avoids_bind; [| intros im'].
  { destruct im; [apply avoids_ret |]. avoids_leaf not_names_arity_error. }
  repeat avoids_step.
Qed.

(** C7. [plot_dsms] raises the arity error exactly when names are given
    and their number differs from the number of DSMs, both counted after a
    single DSM and a single name have been promoted to one-element
    sequences; the error is then raised before anything is drawn.  In
    particular [names=None] never raises it. *)
Theorem C7_names_arity
    (dsms : dsms_arg) (names : names_arg) (items : option (list string))
    (n_rows : Z) (c : string) (title : option string) (st : pyplot) :
  let k := length (dsms_seq dsms) in
  ((exists e, (plot_dsms dsms names items n_rows c title st).1 = Raise e
              /\ is_names_arity_error e)
   <-> (exists ns, names_seq names = Some ns /\ length ns <> k))
  /\ (forall ns, names_seq names = Some ns -> length ns <> k ->
        plot_dsms dsms names items n_rows c title st
        = (Raise (ArityError_names (length ns) k), st))
  /\ (names = NoNames ->
      ~ exists e, (plot_dsms dsms names items n_rows c title st).1 = Raise e
                  /\ is_names_arity_error e).
Proof.
  intros k.
  assert (Hraise : forall ns, names_seq names = Some ns -> length ns <> k ->
            plot_dsms dsms names items n_rows c title st
            = (Raise (ArityError_names (length ns) k), st)).
  { intros ns Hns Hne. rewrite plot_dsms_promoted, Hns. unfold plot_dsms. simpl.
    fold k. destruct (Nat.eqb_spec (length ns) k); [contradiction | done]. }
  assert (Hpass :
            match names_seq names with
            | Some ns => length ns = k
            | None => True
            end ->
            ~ exists e, (plot_dsms dsms names items n_rows c title st).1 = Raise e
                        /\ is_names_arity_error e).
  { intros Hok (e & He & HP). rewrite plot_dsms_promoted in He.
    eapply (plot_dsms_avoids_arity_error (dsms_seq dsms) _ _ _ _ _ Hok);
      [| exact HP].
    rewrite <- He. apply surjective_pairing. }
  split; [split |]; [| | split].
  - intros Hex. destruct (names_seq names) as [ns |] eqn:Hns.
    + destruct (decide (length ns = k)) as [Heq | Hne]; [| by exists ns].
      exfalso. by apply Hpass.
    + exfalso. by apply Hpass.
  - intros (ns & Hns & Hne). rewrite (Hraise ns Hns Hne). simpl.
    eexists. split; [reflexivity |]. by eexists _, _.
  - exact Hraise.
  - intros ->. by apply Hpass.
Qed.

Lemma C7_witness :
  plot_dsms (OneDSM ex_dsm) (NameList ["a"; "b"]) None 1 "viridis" None
            empty_pyplot
  = (Raise (ArityError_names 2 1), empty_pyplot).
Proof.
  apply (proj1 (proj2 (C7_names_arity (OneDSM ex_dsm) (NameList ["a"; "b"])
                         None 1 "viridis" None empty_pyplot))
               ["a"; "b"]).
  - reflexivity.
  - simpl. lia.
Defined.

(** A single DSM with a single name is accepted. *)
Example one_name_for_one_dsm :
  (plot_dsms (OneDSM ex_dsm) (OneName "a") None 1 "viridis" None
             empty_pyplot).1 = Ok 0.
Proof. reflexivity. Qed.

(** ** Topographies drawn into a figure of the caller *)

Section TopoLoop.
Context (dsms : ndarray) (info : Info) (layout : option Layout) (sty : Style).
Context (fig : nat).

(** One pass of the loop: the panel is created at the position of the
    entry, styled, and given its heatmap. *)
Lemma topo_step_ok (ich : nat * (nat * string)) (p : Axes) (st : pyplot)
    (f : Figure) :
  is_current st fig ->
  topo_panel dsms info layout sty ich = Some p ->
  topo_step dsms info (default (found_layout info) layout) sty ich tt
            (on_fig st fig f)
  = (Ok tt, on_fig st fig (set_axes f (fig_axes f ++ [p]))).
Proof.
  intros Hcur Hp. unfold topo_panel in Hp. unfold topo_step, iter_topography_next.
  destruct (layout_pos _ !! ich.2.1) as [r |]; [| done].
  destruct (getitem dsms ich.1) as [row |]; [| done].
  destruct (squareform row) as [sq |] eqn:Hsq; [| done].
  destruct (image_shape_ok (shape sq)) eqn:Hok; [| done]. simplify_eq.
  erewrite bind_ok.
  2: { erewrite bind_ok.
       2: { unfold plt_axes.
            erewrite bind_ok by (by apply gcf_current, is_current_on_fig).
            unfold add_axes.
            erewrite bind_ok by apply count_axes_on_fig.
            erewrite bind_ok by apply update_figure_on_fig.
            reflexivity. }
       erewrite bind_ok by apply update_axes_on_fig.
       reflexivity. }
  simpl fst. unfold bind at 1. unfold lift at 1.
  unfold bind at 1. unfold lift at 1. rewrite Hsq.
  erewrite bind_ok by (by apply imshow_on_fig).
  unfold ret. do 2 f_equal. unfold set_axes. simpl. f_equal.
  rewrite list_alter_alter_eq.
  rewrite <- (Nat.add_0_r (length (fig_axes f))). by rewrite alter_app_r.
Qed.

Lemma topo_loop_ok (chs : list (nat * (nat * string))) :
  forall (st : pyplot) (f : Figure),
    is_current st fig ->
    forallb (fun ich => is_drawn (topo_panel dsms info layout sty ich)) chs
    = true ->
    for_each chs (topo_step dsms info (default (found_layout info) layout) sty)
             tt (on_fig st fig f)
    = (Ok tt,
       on_fig st fig
         (set_axes f (fig_axes f ++ omap (topo_panel dsms info layout sty) chs))).
Proof.
  induction chs as [| ich chs IH]; intros st f Hcur Hall; simpl.
  - unfold ret. rewrite app_nil_r. do 2 f_equal. by destruct f.
  - simpl in Hall. apply andb_prop in Hall as [Hich Hall].
    destruct (topo_panel dsms info layout sty ich) as [p |] eqn:Hp; [| done].
    erewrite bind_ok by (by apply topo_step_ok).
    rewrite IH by done. simpl. by rewrite <- app_assoc.
Qed.
End TopoLoop.



Lemma fig_number_topo_drawn (dsms : ndarray) (info : Info)
    (layout : option Layout) (sty : Style) (f : Figure) :
  fig_number (topo_drawn dsms info layout sty f) = fig_number f.
Proof. unfold topo_drawn. by destruct (show sty). Qed.






(** The figure that a call without a figure creates is open afterwards, so
    the handle it returns can be passed to a later call. *)
Lemma plot_dsms_topo_creates (dsms : ndarray) (info : Info)
    (layout : option Layout) (title : option string) (sty : Style)
    (st : pyplot) :
  topo_drawable dsms info layout sty = true ->
  exists st',
    _plot_dsms_topo dsms info layout None title sty st = (Ok (next_id st), st')
    /\ is_open st' (next_id st)
    /\ next_id st' = S (next_id st).
Proof.
  intros Hdraw. unfold _plot_dsms_topo.
  set (num := next_num (managers st)).
  set (f0 := match title with
             | Some t => set_suptitle (blank_figure num (figsize sty))
                           {| st_text := t; st_right_aligned := true |}
             | None => blank_figure num (figsize sty)
             end).
  exists (on_fig (opened st num) (next_id st)
                 (topo_drawn dsms info layout sty f0)).
  split.
  - rewrite (bind_ok _ _ st (on_fig (opened st num) (next_id st) f0)
                     (next_id st)).
    2: { erewrite bind_ok by apply plt_figure_opened.
         unfold f0. destruct title as [t |].
         - erewrite bind_ok by apply update_figure_on_fig. reflexivity.
         - reflexivity. }
    erewrite bind_ok.
    2: { unfold iter_topography_begin.
         erewrite bind_ok by apply update_figure_on_fig.
         erewrite bind_ok by apply update_figure_on_fig.
         reflexivity. }
    simpl fst. simpl snd.
    erewrite bind_ok by (apply topo_loop_ok; [apply is_current_opened | done]).
    unfold topo_drawn, topo_panels, topo_channels.
    destruct (show sty).
    + erewrite bind_ok; [reflexivity |].
      unfold plt_show.
      erewrite bind_ok
        by (apply gcf_current, is_current_on_fig, is_current_opened).
      apply update_figure_on_fig.
    + reflexivity.
  - split; [| reflexivity].
    eexists. split; [apply lookup_on_fig |].
    rewrite fig_number_topo_drawn. simpl.
    replace (fig_number f0) with num by (by destruct title).
    apply lookup_insert_eq.
Qed.

(** A closed figure is not reused: [plt.figure(fig.number)] opens a new
    figure object under the old number. *)
Example closed_figure_is_replaced :
  (_plot_dsms_topo ex_dsms_a ex_info None (Some 0) None default_style
                   ex_closed_figure).1 = Ok 1.
Proof. reflexivity. Qed.

(** * Further properties of the module *)

(** ** [plot_dsms]: the rows, the new figure, the colorbar, the titles *)

(** X1. With [n_rows=0] and names that pass the check, [plot_dsms] fails on
    the division that computes the number of columns: a
    [ZeroDivisionError], raised before any figure is created. *)
Theorem plot_dsms_zero_rows
    (dsms : dsms_arg) (names : names_arg) (items : option (list string))
    (c : string) (title : option string) (st : pyplot) :
  match names_seq names with
  | Some ns => length ns = length (dsms_seq dsms)
  | None => True
  end ->
  plot_dsms dsms names items 0 c title st
  = (Raise (ZeroDivisionError "division by zero"), st).
Proof.
  intros Hnames. rewrite plot_dsms_promoted. unfold plot_dsms.
  by rewrite names_check_passes.
Qed.

Lemma plot_dsms_zero_rows_witness :
  plot_dsms (DSMList [ex_dsm; ex_dsm]) (NameList ["a"; "b"]) None 0 "viridis"
            None ex_two_figures
  = (Raise (ZeroDivisionError "division by zero"), ex_two_figures).
Proof.
  apply (plot_dsms_zero_rows (DSMList [ex_dsm; ex_dsm]) (NameList ["a"; "b"])).
  reflexivity.
Defined.

(** The state that a successful [plot_dsms] leaves. *)
Lemma plot_dsms_result
    (dsms : dsms_arg) (names : names_arg) (items : option (list string))
    (n_rows : Z) (c : string) (title : option string) (st : pyplot) :
  (0 < n_rows)%Z ->
  0 < length (dsms_seq dsms) ->
  match names_seq names with
  | Some ns => length ns = length (dsms_seq dsms)
  | None => True
  end ->
  Forall (fun d => drawable d = true) (dsms_seq dsms) ->
  exists (C : nat) (d m : ndarray),
    last (dsms_seq dsms) = Some d
    /\ shape_dsm d = Ok m
    /\ length (dsms_seq dsms) <= Z.to_nat n_rows * C
    /\ plot_dsms dsms names items n_rows c title st
       = (Ok (next_id st),
          on_fig (opened st (next_num (managers st))) (next_id st)
            (with_suptitle title
               (add_colorbar
                  (set_axes (grid_figure st (Z.to_nat n_rows) C)
                     (drawn_grid (dsms_seq dsms) (names_seq names) c
                        (Z.to_nat n_rows) C (Z.to_nat n_rows * C)))
                  {| im_data := m; im_cmap := c |}))).
Proof.
  intros Hrows Hk Hnames Hdraw.
  set (l := dsms_seq dsms) in *. set (R := Z.to_nat n_rows).
  destruct (ceil_div_spec (length l) n_rows Hrows) as (C & Hceil & Hlo & Hhi).
  assert (HR : n_rows = Z.of_nat R) by (unfold R; lia).
  assert (Hfit : length l <= R * C) by nia.
  assert (HC : 0 < C) by nia.
  destruct (last l) as [d |] eqn:Hlast.
  2: { apply last_None in Hlast. rewrite Hlast in Hk. simpl in Hk. lia. }
  assert (drawable d = true) as Hd.
  { rewrite Forall_forall in Hdraw. apply Hdraw. by eapply last_Some_elem_of. }
  unfold drawable in Hd. destruct (shape_dsm d) as [m | e] eqn:Hm; [| done].
  exists C, d, m. split; [done |]. split; [done |]. split; [done |].
  rewrite plot_dsms_promoted. fold l. rewrite HR in Hceil |- *.
  apply (plot_dsms_run l (names_seq names) items R C c title st d m);
    try done; lia.
Qed.

(** X2. The single colorbar of the figure that [plot_dsms] returns is tied
    to the heatmap of the last DSM of the sequence (the image drawn last),
    whatever the other DSMs hold; the figure title is [title] when one is
    given and absent otherwise. *)
Theorem plot_dsms_colorbar_follows_last_dsm
    (dsms : dsms_arg) (names : names_arg) (items : option (list string))
    (n_rows : Z) (c : string) (title : option string) (st : pyplot) :
  (0 < n_rows)%Z ->
  0 < length (dsms_seq dsms) ->
  match names_seq names with
  | Some ns => length ns = length (dsms_seq dsms)
  | None => True
  end ->
  Forall (fun d => drawable d = true) (dsms_seq dsms) ->
  exists (st' : pyplot) (f : Figure) (d m : ndarray),
    plot_dsms dsms names items n_rows c title st = (Ok (next_id st), st')
    /\ figures st' !! next_id st = Some f
    /\ last (dsms_seq dsms) = Some d
    /\ shape_dsm d = Ok m
    /\ fig_colorbars f = [{| im_data := m; im_cmap := c |}]
    /\ fig_suptitle f
       = (fun t => {| st_text := t; st_right_aligned := false |}) <$> title.
Proof.
  intros Hrows Hk Hnames Hdraw.
  destruct (plot_dsms_result dsms names items n_rows c title st
              Hrows Hk Hnames Hdraw) as (C & d & m & Hlast & Hm & _ & Hrun).
  eexists _, _, d, m. split; [exact Hrun |].
  split; [apply lookup_on_fig |]. split; [done |]. split; [done |].
  by destruct title.
Qed.

Lemma plot_dsms_colorbar_follows_last_dsm_witness :
  exists (st' : pyplot) (f : Figure),
    plot_dsms (DSMList [ex_dsm; ex_dsms_b]) NoNames None 1 "viridis"
              (Some "two DSMs") empty_pyplot = (Ok 0, st')
    /\ figures st' !! 0 = Some f
    /\ fig_colorbars f = [{| im_data := ex_dsms_b; im_cmap := "viridis" |}]
    /\ fig_suptitle f
       = Some {| st_text := "two DSMs"; st_right_aligned := false |}.
Proof.
  destruct (plot_dsms_colorbar_follows_last_dsm
              (DSMList [ex_dsm; ex_dsms_b]) NoNames None 1 "viridis"
              (Some "two DSMs") empty_pyplot)
    as (st' & f & d & m & Hrun & Hf & Hlast & Hm & Hbar & Htitle).
  - lia.
  - simpl. lia.
  - exact I.
  - repeat constructor.
  - simpl in Hlast. injection Hlast as <-.
    vm_compute in Hm. injection Hm as <-.
    exists st', f. repeat split; assumption.
Defined.

(** The number that [plt.figure] gives a new figure is not in use. *)
Lemma next_num_fresh (m : gmap nat nat) : m !! next_num m = None.
Proof.
  destruct (m !! next_num m) as [id |] eqn:Hm; [| done].
  exfalso. apply elem_of_map_to_list in Hm.
  assert (next_num m ∈ map fst (map_to_list m)) as Hin.
  { change (map fst (map_to_list m)) with (fst <$> map_to_list m).
    apply list_elem_of_fmap. by exists (next_num m, id). }
  apply max_list_elem_of_le in Hin. unfold next_num in Hin at 1. lia.
Qed.

(** X3. A successful [plot_dsms] creates exactly one figure object, under a
    number that no open figure has, and makes it the current figure; every
    other figure object keeps its content and every open figure keeps its
    number.  No pick handler is attached to the new figure. *)
Theorem plot_dsms_opens_one_new_figure
    (dsms : dsms_arg) (names : names_arg) (items : option (list string))
    (n_rows : Z) (c : string) (title : option string) (st : pyplot) :
  (0 < n_rows)%Z ->
  0 < length (dsms_seq dsms) ->
  match names_seq names with
  | Some ns => length ns = length (dsms_seq dsms)
  | None => True
  end ->
  Forall (fun d => drawable d = true) (dsms_seq dsms) ->
  exists (st' : pyplot) (f : Figure),
    plot_dsms dsms names items n_rows c title st = (Ok (next_id st), st')
    /\ figures st' !! next_id st = Some f
    /\ next_id st' = S (next_id st)
    /\ (forall other, other <> next_id st ->
          figures st' !! other = figures st !! other)
    /\ managers st !! fig_number f = None
    /\ (forall num id, managers st !! num = Some id ->
          managers st' !! num = Some id)
    /\ is_open st' (next_id st)
    /\ is_current st' (next_id st)
    /\ fig_callbacks f = [].
Proof.
  intros Hrows Hk Hnames Hdraw.
  destruct (plot_dsms_result dsms names items n_rows c title st
              Hrows Hk Hnames Hdraw) as (C & d & m & _ & _ & _ & Hrun).
  eexists _, _. split; [exact Hrun |].
  split; [apply lookup_on_fig |]. split; [reflexivity |].
  assert (Hnum : forall f0 im,
            fig_number (with_suptitle title (add_colorbar f0 im))
            = fig_number f0) by (intros; by destruct title).
  split; [intros other Hne; by rewrite lookup_on_fig_ne |].
  split; [rewrite Hnum; apply next_num_fresh |].
  split.
  { intros num id Hm. simpl. rewrite lookup_insert_ne; [done |].
    intros <-. by rewrite next_num_fresh in Hm. }
  split.
  { eexists. split; [apply lookup_on_fig |]. rewrite Hnum. simpl.
    apply lookup_insert_eq. }
  split; [apply is_current_on_fig, is_current_opened |].
  by destruct title.
Qed.

Lemma plot_dsms_opens_one_new_figure_witness :
  exists (st' : pyplot) (f : Figure),
    plot_dsms (OneDSM ex_dsm) NoNames None 1 "viridis" None ex_two_figures
    = (Ok 2, st')
    /\ figures st' !! 2 = Some f
    /\ next_id st' = 3
    /\ figures st' !! 0 = figures ex_two_figures !! 0
    /\ figures st' !! 1 = figures ex_two_figures !! 1
    /\ is_current st' 2.
Proof.
  destruct (plot_dsms_opens_one_new_figure (OneDSM ex_dsm) NoNames None 1
              "viridis" None ex_two_figures)
    as (st' & f & Hrun & Hf & Hnext & Hframe & _ & _ & _ & Hcur & _).
  - lia.
  - simpl. lia.
  - exact I.
  - repeat constructor.
  - exists st', f. split; [exact Hrun |]. split; [exact Hf |].
    split; [exact Hnext |].
    split; [apply Hframe; discriminate |].
    split; [apply Hframe; discriminate | exact Hcur].
Defined.

(** X4. In the grid that [plot_dsms] draws, the panel of DSM [i] carries
    the [i]-th name as its title when names are given and no title when
    they are not; the hidden panels beyond the last DSM never get one. *)
Theorem plot_dsms_titles
    (dsms : dsms_arg) (names : names_arg) (items : option (list string))
    (n_rows : Z) (c : string) (title : option string) (st : pyplot) :
  (0 < n_rows)%Z ->
  0 < length (dsms_seq dsms) ->
  match names_seq names with
  | Some ns => length ns = length (dsms_seq dsms)
  | None => True
  end ->
  Forall (fun d => drawable d = true) (dsms_seq dsms) ->
  exists (st' : pyplot) (f : Figure),
    plot_dsms dsms names items n_rows c title st = (Ok (next_id st), st')
    /\ figures st' !! next_id st = Some f
    /\ forall i a, fig_axes f !! i = Some a ->
         ax_title a
         = if decide (i < length (dsms_seq dsms))
           then names_seq names ≫= (fun ns => ns !! i)
           else None.
Proof.
  intros Hrows Hk Hnames Hdraw.
  destruct (plot_dsms_result dsms names items n_rows c title st
              Hrows Hk Hnames Hdraw) as (C & d & m & _ & _ & Hfit & Hrun).
  eexists _, _. split; [exact Hrun |].
  split; [apply lookup_on_fig |].
  assert (Haxes : forall t im f0 g,
            fig_axes (with_suptitle t (add_colorbar (set_axes f0 g) im)) = g)
    by (intros t im f0 g; by destruct t).
  rewrite Haxes. intros i a Ha.
  assert (Hi : i < Z.to_nat n_rows * C).
  { apply lookup_lt_Some in Ha. by rewrite length_drawn_grid in Ha. }
  rewrite drawn_grid_lookup in Ha by done. injection Ha as <-.
  rewrite decide_True by done. unfold cell_update.
  destruct (dsms_seq dsms !! i) as [di |] eqn:Hdi.
  - rewrite decide_True by (by eapply lookup_lt_Some).
    assert (drawable di = true) as Hok.
    { rewrite Forall_forall in Hdraw. apply Hdraw.
      by eapply list_elem_of_lookup_2. }
    unfold drawable in Hok. destruct (shape_dsm di); [| done].
    unfold drawn_cell. by destruct (names_seq names ≫= _).
  - apply lookup_ge_None in Hdi. by rewrite decide_False by lia.
Qed.

Lemma plot_dsms_titles_witness :
  exists (st' : pyplot) (f : Figure),
    plot_dsms (DSMList [ex_dsm; ex_dsm; ex_dsm]) (NameList ["a"; "b"; "c"])
              None 2 "viridis" None empty_pyplot = (Ok 0, st')
    /\ figures st' !! 0 = Some f
    /\ ax_title <$> fig_axes f = [Some "a"; Some "b"; Some "c"; None].
Proof.
  destruct (plot_dsms_titles (DSMList [ex_dsm; ex_dsm; ex_dsm])
              (NameList ["a"; "b"; "c"]) None 2 "viridis" None empty_pyplot)
    as (st' & f & Hrun & Hf & _).
  - lia.
  - simpl. lia.
  - reflexivity.
  - repeat constructor.
  - exists st', f. split; [exact Hrun |]. split; [exact Hf |].
    vm_compute in Hrun. injection Hrun as <-.
    vm_compute in Hf. by injection Hf as <-.
Defined.

(** ** [_click_func]: the drill-down into one sensor *)

Lemma squareform_vector (row : ndarray) (m : nat) :
  shape row = [m] -> condensed_size_ok m = true ->
  exists sq, squareform row = Ok sq /\ image_shape_ok (shape sq) = true.
Proof.
  intros Hs Hm. unfold squareform. rewrite Hs.
  unfold condensed_size_ok in Hm.
  destruct (m =? 0); [by eexists |].
  simpl in Hm. rewrite Hm. by eexists.
Qed.

Lemma getitem_row (dsms : ndarray) (n : nat) (rest : list nat) (i : nat) :
  shape dsms = n :: rest -> i < n ->
  exists row, getitem dsms i = Ok row /\ shape row = rest.
Proof.
  intros Hs Hi. unfold getitem. rewrite Hs.
  destruct (Nat.ltb_spec i n); [| lia]. by eexists.
Qed.

(** X5. For a 2-D array of condensed DSMs and a channel index in range,
    [_click_func] adds the square form of that channel's DSM to the given
    panel, on top of the images the panel already holds (they are not
    removed, and the panel keeps its title and visibility); no other panel,
    no other figure and nothing of the pyplot registry changes. *)
Theorem click_func_draws_on_top
    (fig idx ch_idx : nat) (dsms : ndarray) (c : string) (st : pyplot)
    (f : Figure) (a : Axes) (n m : nat) :
  figures st !! fig = Some f ->
  fig_axes f !! idx = Some a ->
  shape dsms = [n; m] -> ch_idx < n -> condensed_size_ok m = true ->
  exists (st' : pyplot) (f' : Figure) (row sq : ndarray),
    _click_func (fig, idx) ch_idx dsms c st = (Ok tt, st')
    /\ getitem dsms ch_idx = Ok row /\ squareform row = Ok sq
    /\ figures st' !! fig = Some f'
    /\ fig_axes f' !! idx
       = Some (add_image a {| im_data := sq; im_cmap := c |})
    /\ (forall j, j <> idx -> fig_axes f' !! j = fig_axes f !! j)
    /\ (forall other, other <> fig ->
          figures st' !! other = figures st !! other)
    /\ managers st' = managers st /\ active st' = active st
    /\ next_id st' = next_id st.
Proof.
  intros Hf Ha Hs Hi Hm.
  destruct (getitem_row dsms n [m] ch_idx Hs Hi) as (row & Hrow & Hrs).
  destruct (squareform_vector row m Hrs Hm) as (sq & Hsq & Hok).
  set (f' := set_axes f
               (alter (fun a => add_image a {| im_data := sq; im_cmap := c |})
                      idx (fig_axes f))).
  exists (on_fig st fig f'), f', row, sq. split.
  { unfold _click_func.
    erewrite bind_ok by (unfold lift; by rewrite Hrow).
    erewrite bind_ok by (unfold lift; by rewrite Hsq).
    erewrite bind_ok; [reflexivity |].
    rewrite <- (on_fig_id st fig f Hf) at 1. by apply imshow_on_fig. }
  split; [done |]. split; [done |].
  split; [apply lookup_on_fig |].
  split; [simpl; by rewrite list_lookup_alter_eq, Ha |].
  split; [intros j Hj; simpl; by rewrite list_lookup_alter_ne |].
  split; [intros other Hne; by rewrite lookup_on_fig_ne |].
  done.
Qed.

Lemma click_func_draws_on_top_witness :
  exists (st' : pyplot) (f' : Figure),
    _click_func (0, 0) 1 ex_dsms_a "viridis"
      (snd (_plot_dsms_topo ex_dsms_a ex_info None None None default_style
              empty_pyplot)) = (Ok tt, st')
    /\ figures st' !! 0 = Some f'
    /\ (length <$> (ax_images <$> fig_axes f' !! 0)) = Some 2
    /\ (length <$> (ax_images <$> fig_axes f' !! 1)) = Some 1.
Proof.
  set (st := snd (_plot_dsms_topo ex_dsms_a ex_info None None None
                    default_style empty_pyplot)).
  assert (exists f a, figures st !! 0 = Some f /\ fig_axes f !! 0 = Some a
                      /\ length (ax_images a) = 1
                      /\ (length <$> (ax_images <$> fig_axes f !! 1)) = Some 1)
    as (f & a & Hf & Ha & Hlen & Hother).
  { eexists _, _. repeat split; vm_compute; reflexivity. }
  destruct (click_func_draws_on_top 0 0 1 ex_dsms_a "viridis" st f a 2 1
              Hf Ha eq_refl ltac:(lia) eq_refl)
    as (st' & f' & row & sq & Hrun & _ & _ & Hf' & Hidx & Hrest & _).
  exists st', f'. split; [exact Hrun |]. split; [exact Hf' |].
  split.
  - rewrite Hidx. simpl. rewrite length_app, Hlen. reflexivity.
  - rewrite Hrest by lia. exact Hother.
Defined.

(** X6. [_click_func] is all-or-nothing: whenever it raises, the pyplot
    state is exactly as before the call.  In particular a channel index
    beyond the last DSM raises an [IndexError] and draws nothing. *)
Theorem click_func_failure_draws_nothing
    (ax : nat * nat) (ch_idx : nat) (dsms : ndarray) (c : string)
    (st : pyplot) :
  (forall e st', _click_func ax ch_idx dsms c st = (Raise e, st') -> st' = st)
  /\ (forall n rest, shape dsms = n :: rest -> n <= ch_idx ->
        exists msg,
          _click_func ax ch_idx dsms c st = (Raise (IndexError msg), st)).
Proof.
  split.
  - intros e st' Hrun. unfold _click_func, bind, lift in Hrun.
    destruct (getitem dsms ch_idx) as [row |]; [| by simplify_eq].
    destruct (squareform row) as [sq |]; [| by simplify_eq].
    unfold imshow in Hrun.
    destruct (image_shape_ok (shape sq)); [| unfold raise in Hrun; by simplify_eq].
    unfold bind, update_axes, update_figure, ret in Hrun. discriminate.
  - intros n rest Hs Hn. eexists. unfold _click_func, bind, lift, getitem.
    rewrite Hs. destruct (Nat.ltb_spec ch_idx n); [lia | reflexivity].
Qed.

Lemma click_func_failure_draws_nothing_witness :
  exists msg,
    _click_func (0, 0) 2 ex_dsms_a "viridis" ex_two_figures
    = (Raise (IndexError msg), ex_two_figures).
Proof.
  apply (proj2 (click_func_failure_draws_nothing (0, 0) 2 ex_dsms_a "viridis"
                  ex_two_figures) 2 [1]).
  - reflexivity.
  - lia.
Defined.

(** ** [_plot_dsms_topo]: a new figure, its panels, and failures *)

Lemma plot_dsms_topo_new_prologue (dsms : ndarray) (info : Info)
    (layout : option Layout) (title : option string) (sty : Style)
    (st : pyplot) :
  _plot_dsms_topo dsms info layout None title sty st
  = bind (for_each (topo_channels info layout)
            (topo_step dsms info (default (found_layout info) layout) sty) tt)
         (fun _ => bind (if show sty then plt_show else ret tt)
                        (fun _ => ret (next_id st)))
         (on_fig (opened st (next_num (managers st))) (next_id st)
                 (new_topo_figure st dsms title sty)).
Proof.
  unfold _plot_dsms_topo.
  rewrite (bind_ok _ _ st
             (on_fig (opened st (next_num (managers st))) (next_id st)
                (match title with
                 | Some t => set_suptitle
                               (blank_figure (next_num (managers st)) (figsize sty))
                               {| st_text := t; st_right_aligned := true |}
                 | None => blank_figure (next_num (managers st)) (figsize sty)
                 end))
             (next_id st)).
  2: { erewrite bind_ok by apply plt_figure_opened.
       destruct title as [t |]; [| reflexivity].
       erewrite bind_ok by apply update_figure_on_fig. reflexivity. }
  erewrite bind_ok.
  2: { unfold iter_topography_begin.
       erewrite bind_ok by apply update_figure_on_fig.
       erewrite bind_ok by apply update_figure_on_fig.
       reflexivity. }
  reflexivity.
Qed.

Lemma plot_dsms_topo_new_run (dsms : ndarray) (info : Info)
    (layout : option Layout) (title : option string) (sty : Style)
    (st : pyplot) :
  topo_drawable dsms info layout sty = true ->
  _plot_dsms_topo dsms info layout None title sty st
  = (Ok (next_id st),
     on_fig (opened st (next_num (managers st))) (next_id st)
       (let f := new_topo_figure st dsms title sty in
        let f' := set_axes f (fig_axes f ++ topo_panels dsms info layout sty) in
        if show sty then set_shown f' else f')).
Proof.
  intros Hdraw. rewrite plot_dsms_topo_new_prologue.
  erewrite bind_ok by (apply topo_loop_ok; [apply is_current_opened | done]).
  cbv zeta. fold (topo_panels dsms info layout sty).
  destruct (show sty).
  - erewrite bind_ok; [reflexivity |].
    unfold plt_show.
    erewrite bind_ok
      by (apply gcf_current, is_current_on_fig, is_current_opened).
    apply update_figure_on_fig.
  - reflexivity.
Qed.

(** X7. Called without a figure, [_plot_dsms_topo] creates exactly one
    figure object under an unused number and leaves every other figure as
    it was.  The new figure has the requested size and face colour, the
    title right-aligned when one is given, one pick handler that holds the
    DSMs and the colormap of this call, exactly the panels of the layout
    pass, and is shown exactly when [show] is set. *)
Theorem plot_dsms_topo_new_figure
    (dsms : ndarray) (info : Info) (layout : option Layout)
    (title : option string) (sty : Style) (st : pyplot) :
  topo_drawable dsms info layout sty = true ->
  exists (st' : pyplot) (f : Figure),
    _plot_dsms_topo dsms info layout None title sty st = (Ok (next_id st), st')
    /\ figures st' !! next_id st = Some f
    /\ (forall other, other <> next_id st ->
          figures st' !! other = figures st !! other)
    /\ managers st !! fig_number f = None
    /\ is_current st' (next_id st)
    /\ fig_figsize f = figsize sty
    /\ fig_face f = Some (fig_facecolor sty)
    /\ fig_suptitle f
       = (fun t => {| st_text := t; st_right_aligned := true |}) <$> title
    /\ fig_callbacks f = [OnPick dsms (cmap sty)]
    /\ fig_axes f = topo_panels dsms info layout sty
    /\ fig_shown f = show sty
    /\ fig_colorbars f = [].
Proof.
  intros Hdraw. eexists _, _.
  split; [by apply plot_dsms_topo_new_run |].
  split; [apply lookup_on_fig |].
  split; [intros other Hne; by rewrite lookup_on_fig_ne |].
  cbv zeta. unfold new_topo_figure.
  split; [destruct (show sty), title; simpl; apply next_num_fresh |].
  split; [apply is_current_on_fig, is_current_opened |].
  repeat split; by destruct (show sty), title.
Qed.

Lemma plot_dsms_topo_new_figure_witness :
  exists (st' : pyplot) (f : Figure),
    _plot_dsms_topo ex_dsms_a ex_info None None (Some "t") default_style
                    ex_two_figures = (Ok 2, st')
    /\ figures st' !! 2 = Some f
    /\ figures st' !! 0 = figures ex_two_figures !! 0
    /\ fig_suptitle f = Some {| st_text := "t"; st_right_aligned := true |}
    /\ length (fig_axes f) = 2.
Proof.
  destruct (plot_dsms_topo_new_figure ex_dsms_a ex_info None (Some "t")
              default_style ex_two_figures eq_refl)
    as (st' & f & Hrun & Hf & Hframe & _ & _ & _ & _ & Htitle & _ & Haxes & _).
  exists st', f. split; [exact Hrun |]. split; [exact Hf |].
  split; [apply Hframe; discriminate |]. split; [exact Htitle |].
  by rewrite Haxes.
Defined.

Lemma enumerate_from_lookup {A} (l : list A) :
  forall (j i : nat),
    enumerate_from j l !! i = (fun x => (j + i, x)) <$> l !! i.
Proof.
  induction l as [| x l IH]; intros j i; [done |].
  destruct i as [| i]; simpl.
  - by rewrite Nat.add_0_r.
  - rewrite IH. by replace (S j + i) with (j + S i) by lia.
Qed.

Lemma length_enumerate_from {A} (l : list A) (j : nat) :
  length (enumerate_from j l) = length l.
Proof. revert j. induction l as [| x l IH]; intros j; simpl; [done | by rewrite IH]. Qed.

Lemma omap_lookup_drawn {A} (g : A -> option Axes) (l : list A) :
  forallb (fun x => is_drawn (g x)) l = true ->
  forall i, omap g l !! i = l !! i ≫= g.
Proof.
  induction l as [| x l IH]; intros Hall i; [done |].
  simpl in Hall. apply andb_prop in Hall as [Hx Hall]. simpl.
  destruct (g x) as [a |] eqn:Hg; [| done].
  destruct i as [| i]; simpl; [done | by apply IH].
Qed.

Lemma length_omap_drawn {A} (g : A -> option Axes) (l : list A) :
  forallb (fun x => is_drawn (g x)) l = true ->
  length (omap g l) = length l.
Proof.
  induction l as [| x l IH]; intros Hall; [done |].
  simpl in Hall. apply andb_prop in Hall as [Hx Hall]. simpl.
  destruct (g x); [simpl; f_equal; by apply IH | done].
Qed.

Lemma index_of_lookup (l : list string) :
  NoDup l -> forall i x, l !! i = Some x -> index_of x l = i.
Proof.
  induction 1 as [| y l Hy Hnd IH]; intros i x Hx; [done |].
  simpl. destruct i as [| i]; simpl in Hx.
  - simplify_eq. by rewrite String.eqb_refl.
  - destruct (String.eqb_spec y x) as [-> | Hne].
    + exfalso. apply Hy. by eapply list_elem_of_lookup_2.
    + f_equal. by apply IH.
Qed.

(** X8. The loop of [_plot_dsms_topo] pairs DSMs with panels by position:
    the [i]-th panel it draws shows the square form of [dsms[i]], where [i]
    counts the visited layout entries, and is tagged with the channel index
    that the iterator yielded (the index a later click passes to
    [_click_func]).  The two indices agree, so that a click enlarges the DSM
    the panel shows, when the visited entries are the channels of [info] in
    their order and the channel names are distinct. *)
Theorem topo_panels_follow_visiting_order
    (dsms : ndarray) (info : Info) (layout : option Layout)
    (title : option string) (sty : Style) (st : pyplot) :
  topo_drawable dsms info layout sty = true ->
  exists (st' : pyplot) (f : Figure),
    _plot_dsms_topo dsms info layout None title sty st = (Ok (next_id st), st')
    /\ figures st' !! next_id st = Some f
    /\ length (fig_axes f) = length (visited_names info layout)
    /\ forall i a, fig_axes f !! i = Some a ->
         exists name row sq,
           visited_names info layout !! i = Some name
           /\ ax_mne_ch a = Some (name, index_of name (ch_names info))
           /\ getitem dsms i = Ok row
           /\ squareform row = Ok sq
           /\ ax_images a = [{| im_data := sq; im_cmap := cmap sty |}]
           /\ (visited_names info layout = ch_names info ->
               NoDup (ch_names info) ->
               index_of name (ch_names info) = i).
Proof.
  intros Hdraw. eexists _, _.
  split; [by apply plot_dsms_topo_new_run |].
  split; [apply lookup_on_fig |].
  assert (Haxes : fig_axes
                    (let f := new_topo_figure st dsms title sty in
                     let f' := set_axes f (fig_axes f
                                 ++ topo_panels dsms info layout sty) in
                     if show sty then set_shown f' else f')
                  = topo_panels dsms info layout sty).
  { cbv zeta. unfold new_topo_figure. by destruct (show sty), title. }
  rewrite Haxes. unfold topo_panels, visited_names.
  assert (Hlook : forall i,
            omap (topo_panel dsms info layout sty) (topo_channels info layout) !! i
            = topo_channels info layout !! i ≫= topo_panel dsms info layout sty)
    by (by apply omap_lookup_drawn).
  split.
  { rewrite length_fmap. by apply length_omap_drawn. }
  intros i a Ha. rewrite Hlook in Ha.
  destruct (topo_channels info layout !! i) as [ich |] eqn:Hich; [| done].
  simpl in Ha.
  assert (Hpos : ich.1 = i).
  { unfold topo_channels in Hich. rewrite enumerate_from_lookup in Hich.
    destruct (_ !! i); simpl in Hich; by simplify_eq. }
  unfold topo_panel in Ha. rewrite Hpos in Ha.
  destruct (layout_pos _ !! ich.2.1) as [r |]; [| done].
  destruct (getitem dsms i) as [row |]; [| done].
  destruct (squareform row) as [sq |] eqn:Hsq; [| done].
  destruct (image_shape_ok (shape sq)); [| done].
  injection Ha as <-. exists ich.2.2, row, sq.
  split; [by rewrite list_lookup_fmap, Hich |].
  do 4 (split; [done |]).
  intros Hsame Hnd. apply index_of_lookup; [done |].
  rewrite <- Hsame. unfold visited_names. by rewrite list_lookup_fmap, Hich.
Qed.

Lemma topo_panels_follow_visiting_order_witness :
  exists (st' : pyplot) (f : Figure),
    _plot_dsms_topo ex_dsms_a ex_info None None None default_style empty_pyplot
    = (Ok 0, st')
    /\ figures st' !! 0 = Some f
    /\ length (fig_axes f) = 2.
Proof.
  destruct (topo_panels_follow_visiting_order ex_dsms_a ex_info None None
              default_style empty_pyplot eq_refl)
    as (st' & f & Hrun & Hf & Hlen & _).
  exists st', f. split; [exact Hrun |]. split; [exact Hf |]. exact Hlen.
Defined.

(** When the layout lists the channels in another order than [info], a
    panel shows the DSM of its position, not of its channel. *)
Example panel_shows_dsm_of_position :
  let layout := {| layout_names := ["MEG 002"; "MEG 001"];
                   layout_pos := layout_pos ex_layout |} in
  (fun a => (ax_mne_ch a, ax_images a))
    <$> topo_panels ex_dsms_a ex_info (Some layout) default_style
  = [ (Some ("MEG 002", 1),
       [{| im_data := {| shape := [2; 2];
                         data := [Fin 0; Fin 1; Fin 1; Fin 0] |};
           im_cmap := "viridis" |}]);
      (Some ("MEG 001", 0),
       [{| im_data := {| shape := [2; 2];
                         data := [Fin 0; Fin 2; Fin 2; Fin 0] |};
           im_cmap := "viridis" |}]) ].
Proof. reflexivity. Qed.

(** A pass of the loop whose DSM is missing: the iterator has already
    created and styled the panel when [dsms[i]] raises. *)
Lemma topo_step_raises (dsms : ndarray) (info : Info) (layout : option Layout)
    (sty : Style) (fig : nat) (ich : nat * (nat * string)) (r : rect)
    (e : exn) (st : pyplot) (f : Figure) :
  is_current st fig ->
  layout_pos (default (found_layout info) layout) !! ich.2.1 = Some r ->
  getitem dsms ich.1 = Raise e ->
  topo_step dsms info (default (found_layout info) layout) sty ich tt
            (on_fig st fig f)
  = (Raise e,
     on_fig st fig
       (set_axes f (fig_axes f ++ [empty_topo_panel info sty r ich.2.2]))).
Proof.
  intros Hcur Hr He. unfold topo_step, iter_topography_next. rewrite Hr.
  erewrite bind_ok.
  2: { erewrite bind_ok.
       2: { unfold plt_axes.
            erewrite bind_ok by (by apply gcf_current, is_current_on_fig).
            unfold add_axes.
            erewrite bind_ok by apply count_axes_on_fig.
            erewrite bind_ok by apply update_figure_on_fig.
            reflexivity. }
       erewrite bind_ok by apply update_axes_on_fig.
       reflexivity. }
  erewrite bind_raise by (unfold lift; by rewrite He).
  do 2 f_equal. unfold set_axes. simpl. f_equal.
  rewrite <- (Nat.add_0_r (length (fig_axes f))). by rewrite alter_app_r.
Qed.

(** X9. When the layout pass visits more entries than [dsms] has rows,
    [_plot_dsms_topo] fails with an [IndexError] only after it has drawn a
    panel for every row: the new figure is left open and current, holding
    those panels and one more, empty, panel of the first entry without a
    DSM.  The counts are not compared before drawing. *)
Theorem plot_dsms_topo_too_few_dsms
    (dsms : ndarray) (info : Info) (layout : option Layout)
    (title : option string) (sty : Style) (st : pyplot)
    (n : nat) (rest : list nat) (ich : nat * (nat * string)) (r : rect) :
  shape dsms = n :: rest ->
  topo_channels info layout !! n = Some ich ->
  layout_pos (default (found_layout info) layout) !! ich.2.1 = Some r ->
  forallb (fun ich => is_drawn (topo_panel dsms info layout sty ich))
          (take n (topo_channels info layout)) = true ->
  exists (msg : string) (st' : pyplot) (f : Figure),
    _plot_dsms_topo dsms info layout None title sty st
    = (Raise (IndexError msg), st')
    /\ figures st' !! next_id st = Some f
    /\ is_open st' (next_id st)
    /\ is_current st' (next_id st)
    /\ fig_axes f
       = omap (topo_panel dsms info layout sty)
              (take n (topo_channels info layout))
         ++ [empty_topo_panel info sty r ich.2.2]
    /\ length (fig_axes f) = S n
    /\ fig_shown f = false.
Proof.
  intros Hs Hich Hr Hpre.
  assert (Hpos : ich.1 = n).
  { unfold topo_channels in Hich. rewrite enumerate_from_lookup in Hich.
    destruct (_ !! n); simpl in Hich; by simplify_eq. }
  assert (Hraise : exists msg, getitem dsms ich.1 = Raise (IndexError msg)).
  { unfold getitem. rewrite Hs, Hpos.
    destruct (Nat.ltb_spec n n); [lia | by eexists]. }
  destruct Hraise as [msg Hraise].
  exists msg. eexists _, _. split.
  { rewrite plot_dsms_topo_new_prologue.
    rewrite <- (take_drop_middle _ _ _ Hich) at 1.
    apply bind_raise. rewrite for_each_app.
    erewrite bind_ok by (apply topo_loop_ok; [apply is_current_opened | done]).
    simpl. apply bind_raise.
    by apply topo_step_raises; [apply is_current_opened | |]. }
  split; [apply lookup_on_fig |].
  split.
  { eexists. split; [apply lookup_on_fig |]. unfold new_topo_figure.
    destruct title; simpl; apply lookup_insert_eq. }
  split; [apply is_current_on_fig, is_current_opened |].
  split; [unfold new_topo_figure; by destruct title |].
  split.
  { simpl. rewrite length_app, length_app. simpl.
    rewrite length_omap_drawn by done.
    rewrite length_take. apply lookup_lt_Some in Hich.
    unfold new_topo_figure. destruct title; simpl; lia. }
  unfold new_topo_figure. by destruct title.
Qed.

Lemma plot_dsms_topo_too_few_dsms_witness :
  exists (msg : string) (st' : pyplot) (f : Figure),
    _plot_dsms_topo ex_dsm_row ex_info None None None default_style
                    empty_pyplot = (Raise (IndexError msg), st')
    /\ figures st' !! 0 = Some f
    /\ is_open st' 0
    /\ length (fig_axes f) = 2.
Proof.
  destruct (plot_dsms_topo_too_few_dsms ex_dsm_row ex_info None None
              default_style empty_pyplot 1 [1] (1, (1, "MEG 002"))
              {| rx := 3 # 5; ry := 1 # 2; rw := 1 # 5; rh := 1 # 5 |})
    as (msg & st' & f & Hrun & Hf & Hopen & _ & _ & Hlen & _);
    try reflexivity.
  exists msg, st', f. repeat split; assumption.
Defined.

(** ** [plot_dsms_topos]: the loop over the windows *)

Lemma windows_loop_app (dsms : ndarray) (info : Info) (layout : option Layout)
    (sty : Style) (l1 l2 : list (nat * pyval)) :
  forall figs st,
    windows_loop dsms info layout sty (l1 ++ l2) figs st
    = match windows_loop dsms info layout sty l1 figs st with
      | (Ok _, figs', st') => windows_loop dsms info layout sty l2 figs' st'
      | (Raise e, figs', st') => (Raise e, figs', st')
      end.
Proof.
  induction l1 as [| [i tw] l1 IH]; intros figs st; simpl; [done |].
  destruct (window_body dsms info layout sty i tw figs st) as [[fig | e] st1];
    [apply IH | done].
Qed.

Lemma enumerate_from_app {A} (l1 l2 : list A) (i : nat) :
  enumerate_from i (l1 ++ l2)
  = enumerate_from i l1 ++ enumerate_from (i + length l1) l2.
Proof.
  revert i. induction l1 as [| x l1 IH]; intros i; simpl.
  - by rewrite Nat.add_0_r.
  - rewrite IH. by replace (S i + length l1) with (i + S (length l1)) by lia.
Qed.

(** One window drawn into a new figure. *)
Lemma window_body_fresh (dsms : ndarray) (info : Info)
    (layout : option Layout) (sty : Style) (i : nat) (tw : pyval)
    (figs : option (list (option nat))) (st : pyplot) :
  window_ok dsms info layout sty tw = true ->
  figs_getitem figs i = Ok None ->
  exists (st' : pyplot) (f : Figure),
    window_body dsms info layout sty i tw figs st = (Ok (next_id st), st')
    /\ next_id st' = S (next_id st)
    /\ figures st' !! next_id st = Some f
    /\ managers st' !! fig_number f = Some (next_id st)
    /\ fig_suptitle f = window_title tw
    /\ (forall other, other <> next_id st ->
          figures st' !! other = figures st !! other)
    /\ (forall num id, managers st !! num = Some id ->
          managers st' !! num = Some id).
Proof.
  intros Hok Hfig. unfold window_ok in Hok. unfold window_title.
  destruct (py_getitem tw 0) as [lo |] eqn:Hlo; [| done].
  destruct (py_getitem tw 1) as [hi |] eqn:Hhi; [| done].
  destruct (crop_axis1 dsms lo hi) as [c |] eqn:Hc; [| done].
  destruct (mean_axis1 c) as [avg |] eqn:Havg; [| done].
  eexists _, _. split.
  { unfold window_body, bind, lift. rewrite Hlo, Hhi, Hc, Havg, Hfig.
    by apply plot_dsms_topo_new_run. }
  split; [reflexivity |]. split; [apply lookup_on_fig |].
  cbv zeta. unfold new_topo_figure.
  split; [destruct (show sty); simpl; apply lookup_insert_eq |].
  split; [by destruct (show sty) |].
  split; [intros other Hne; by rewrite lookup_on_fig_ne |].
  intros num id Hm. simpl. rewrite lookup_insert_ne; [done |].
  intros <-. by rewrite next_num_fresh in Hm.
Qed.

(** The loop over windows whose slots in [figs] are all empty. *)
Lemma windows_loop_fresh (dsms : ndarray) (info : Info)
    (layout : option Layout) (sty : Style) (rest : list pyval) :
  forall (done_ tail : list (option nat)) (st : pyplot),
    forallb (window_ok dsms info layout sty) rest = true ->
    exists st',
      windows_loop dsms info layout sty
        (enumerate_from (length done_) rest)
        (Some (done_ ++ replicate (length rest) None ++ tail)) st
      = (Ok tt,
         Some (done_ ++ (Some <$> seq (next_id st) (length rest)) ++ tail),
         st')
      /\ next_id st' = next_id st + length rest
      /\ (forall other,
            ~ (next_id st <= other < next_id st + length rest) ->
            figures st' !! other = figures st !! other)
      /\ (forall num id, managers st !! num = Some id ->
            managers st' !! num = Some id)
      /\ (forall j tw, rest !! j = Some tw ->
            exists f,
              figures st' !! (next_id st + j) = Some f
              /\ managers st' !! fig_number f = Some (next_id st + j)
              /\ fig_suptitle f = window_title tw).
Proof.
  induction rest as [| tw rest IH]; intros done_ tail st Hall.
  - exists st. simpl. split; [done |]. split; [lia |]. by repeat split.
  - simpl in Hall. apply andb_prop in Hall as [Htw Hall].
    destruct (window_body_fresh dsms info layout sty (length done_) tw
                (Some (done_ ++ replicate (length (tw :: rest)) None ++ tail))
                st Htw)
      as (st1 & f & Hbody & Hnext & Hf & Hm & Htitle & Hframe & Hmono).
    { simpl. rewrite lookup_app_r by lia. by rewrite Nat.sub_diag. }
    destruct (IH (done_ ++ [Some (next_id st)]) tail st1 Hall)
      as (st' & Hloop & Hnext' & Hframe' & Hmono' & Hfigs').
    exists st'. split.
    { simpl in Hbody |- *. rewrite Hbody. simpl.
      replace (<[length done_ := Some (next_id st)]>
                 (done_ ++ None :: replicate (length rest) None ++ tail))
        with ((done_ ++ [Some (next_id st)])
                ++ replicate (length rest) None ++ tail).
      2: { rewrite <- (Nat.add_0_r (length done_)) at 1.
           rewrite insert_app_r. simpl. by rewrite <- app_assoc. }
      replace (S (length done_)) with (length (done_ ++ [Some (next_id st)]))
        by (rewrite length_app; simpl; lia).
      rewrite Hloop, Hnext. by rewrite <- app_assoc. }
    split; [rewrite Hnext', Hnext; simpl; lia |].
    split.
    { intros other Hout. simpl in Hout.
      rewrite Hframe' by (rewrite Hnext; lia). apply Hframe. lia. }
    split; [intros num id Hnum; by apply Hmono', Hmono |].
    intros j tw' Hj. destruct j as [| j]; simpl in Hj.
    + injection Hj as <-. exists f. rewrite Nat.add_0_r.
      split; [rewrite Hframe' by (rewrite Hnext; lia); exact Hf |].
      split; [by apply Hmono' | exact Htitle].
    + destruct (Hfigs' j tw' Hj) as (f' & Hf' & Hm' & Ht').
      exists f'. rewrite Hnext in Hf', Hm'.
      replace (next_id st + S j) with (S (next_id st) + j) by lia. done.
Qed.

(** X10. For a 3-D tensor, a list of windows that can each be drawn and
    [figs=None], [plot_dsms_topos] returns one new figure per window, in
    window order: the handles are consecutive new objects, each figure is
    open and carries the title of its window, and no figure that existed
    before is touched. *)
Theorem plot_dsms_topos_fresh_figures
    (dsms : ndarray) (info : Info) (tws : list pyval)
    (layout : option Layout) (sty : Style) (st : pyplot) :
  ndim dsms = 3 ->
  forallb isinstance_list tws = true ->
  forallb (window_ok dsms info layout sty) tws = true ->
  exists st',
    plot_dsms_topos dsms info (PList tws) layout None sty st
    = (Ok (Some (Some <$> seq (next_id st) (length tws))),
       Some (Some <$> seq (next_id st) (length tws)), st')
    /\ next_id st' = next_id st + length tws
    /\ (forall other,
          ~ (next_id st <= other < next_id st + length tws) ->
          figures st' !! other = figures st !! other)
    /\ (forall j tw, tws !! j = Some tw ->
          is_open st' (next_id st + j)
          /\ exists f, figures st' !! (next_id st + j) = Some f
                       /\ fig_suptitle f = window_title tw).
Proof.
  intros Hdim Hlists Hok.
  destruct (windows_loop_fresh dsms info layout sty tws [] [] st Hok)
    as (st' & Hloop & Hnext & Hframe & _ & Hfigs).
  exists st'. split.
  { unfold plot_dsms_topos, check_arguments. unfold ndim in Hdim.
    rewrite Hdim, Hlists. simpl in Hloop |- *.
    rewrite !app_nil_r in Hloop. by rewrite Hloop. }
  split; [exact Hnext |]. split; [exact Hframe |].
  intros j tw Hj. destruct (Hfigs j tw Hj) as (f & Hf & Hm & Ht).
  split; [by exists f | by exists f].
Qed.

Lemma plot_dsms_topos_fresh_figures_witness :
  exists st',
    plot_dsms_topos ex_tensor ex_info
      (PList [PList [PInt 0; PInt 2]; PList [PInt 2; PInt 4]]) None None
      default_style ex_two_figures
    = (Ok (Some [Some 2; Some 3]), Some [Some 2; Some 3], st')
    /\ next_id st' = 4
    /\ figures st' !! 0 = figures ex_two_figures !! 0.
Proof.
  destruct (plot_dsms_topos_fresh_figures ex_tensor ex_info
              [PList [PInt 0; PInt 2]; PList [PInt 2; PInt 4]] None
              default_style ex_two_figures)
    as (st' & Hrun & Hnext & Hframe & _); try reflexivity.
  exists st'. split; [exact Hrun |]. split; [exact Hnext |].
  apply Hframe. simpl. lia.
Defined.

Lemma window_body_short (dsms : ndarray) (info : Info)
    (layout : option Layout) (sty : Style) (short : list pyval) :
  length short < 2 ->
  forall i figs st,
    window_body dsms info layout sty i (PList short) figs st
    = (Raise (IndexError "list index out of range"), st).
Proof.
  intros Hshort i figs st. unfold window_body.
  destruct short as [| x [| y short]]; [done | done | simpl in Hshort; lia].
Qed.

(** X11. When a window of the list has fewer than two entries, the call
    fails with an [IndexError] at that window, after every earlier window
    has been drawn: their new figures stay open, and their slots of [figs]
    are filled while the later slots are still [None]. *)
Theorem plot_dsms_topos_fails_midway
    (dsms : ndarray) (info : Info) (pre post : list pyval) (short : list pyval)
    (layout : option Layout) (sty : Style) (st : pyplot) :
  ndim dsms = 3 ->
  forallb isinstance_list (pre ++ PList short :: post) = true ->
  forallb (window_ok dsms info layout sty) pre = true ->
  length short < 2 ->
  exists st',
    plot_dsms_topos dsms info (PList (pre ++ PList short :: post)) layout None
                    sty st
    = (Raise (IndexError "list index out of range"),
       Some ((Some <$> seq (next_id st) (length pre))
             ++ replicate (S (length post)) None),
       st')
    /\ next_id st' = next_id st + length pre
    /\ (forall j tw, pre !! j = Some tw ->
          is_open st' (next_id st + j)
          /\ exists f, figures st' !! (next_id st + j) = Some f
                       /\ fig_suptitle f = window_title tw).
Proof.
  intros Hdim Hlists Hok Hshort.
  destruct (windows_loop_fresh dsms info layout sty pre []
              (replicate (S (length post)) None) st Hok)
    as (st' & Hloop & Hnext & _ & _ & Hfigs).
  exists st'. split.
  { unfold plot_dsms_topos, check_arguments. unfold ndim in Hdim.
    rewrite Hdim, Hlists. simpl negb. cbv iota.
    unfold py_elements. rewrite enumerate_from_app, windows_loop_app.
    rewrite length_app. simpl length.
    rewrite replicate_add.
    assert (Hloop' :
              windows_loop dsms info layout sty (enumerate_from 0 pre)
                (Some (replicate (length pre) None
                       ++ replicate (S (length post)) None)) st
              = (Ok tt,
                 Some ((Some <$> seq (next_id st) (length pre))
                       ++ replicate (S (length post)) None), st'))
      by exact Hloop.
    rewrite Hloop'. simpl enumerate_from. simpl windows_loop.
    by rewrite window_body_short. }
  split; [exact Hnext |].
  intros j tw Hj. destruct (Hfigs j tw Hj) as (f & Hf & Hm & Ht).
  split; [by exists f | by exists f].
Qed.

Lemma plot_dsms_topos_fails_midway_witness :
  exists st',
    plot_dsms_topos ex_tensor ex_info
      (PList [PList [PInt 0; PInt 2]; PList [PInt 2]; PList [PInt 1; PInt 3]])
      None None default_style empty_pyplot
    = (Raise (IndexError "list index out of range"),
       Some [Some 0; None; None], st')
    /\ next_id st' = 1
    /\ is_open st' 0.
Proof.
  destruct (plot_dsms_topos_fails_midway ex_tensor ex_info
              [PList [PInt 0; PInt 2]] [PList [PInt 1; PInt 3]] [PInt 2] None
              default_style empty_pyplot)
    as (st' & Hrun & Hnext & Hfigs); try reflexivity.
  - simpl. lia.
  - exists st'. split; [exact Hrun |]. split; [exact Hnext |].
    by destruct (Hfigs 0 (PList [PInt 0; PInt 2]) eq_refl) as [Hopen _].
Defined.

(** X12. An empty list of windows is accepted: with [figs=None] or an empty
    [figs] the call returns an empty list and changes nothing; with a
    non-empty [figs] it raises the arity error. *)
Theorem plot_dsms_topos_no_window
    (dsms : ndarray) (info : Info) (layout : option Layout)
    (figs : option (list (option nat))) (sty : Style) (st : pyplot) :
  ndim dsms = 3 ->
  plot_dsms_topos dsms info (PList []) layout figs sty st
  = match figs with
    | None | Some [] => (Ok (Some []), Some [], st)
    | Some (_ :: _) => (Raise figs_arity_error, figs, st)
    end.
Proof.
  intros Hdim. unfold plot_dsms_topos, check_arguments. unfold ndim in Hdim.
  rewrite Hdim. simpl. by destruct figs as [[| x fl] |].
Qed.

Lemma plot_dsms_topos_no_window_witness :
  plot_dsms_topos ex_tensor ex_info (PList []) None (Some [Some 0]) default_style
                  ex_two_figures
  = (Raise figs_arity_error, Some [Some 0], ex_two_figures).
Proof.
  apply (plot_dsms_topos_no_window ex_tensor ex_info None (Some [Some 0])).
  reflexivity.
Defined.






(** ** Window bounds *)



(** X15. A window that selects no sample (its end is not after its start)
    is not refused: the array handed to [_plot_dsms_topo] has the usual
    shape and every entry of it is NaN, the mean of no samples. *)
Theorem empty_window_gives_nan
    (dsms : ndarray) (ns nt nk : nat) (start stop : Z)
    (info : Info) (layout : option Layout) (sty : Style) :
  shape dsms = [ns; nt; nk] ->
  (0 <= stop <= start)%Z ->
  exists avg,
    shape avg = [ns; nk]
    /\ (forall s k, s < ns -> k < nk -> get2 avg s k = NaN)
    /\ (forall i figs fig_i st,
          figs_getitem figs i = Ok fig_i ->
          window_body dsms info layout sty i
                      (PList [PInt start; PInt stop]) figs st
          = _plot_dsms_topo avg info layout fig_i
              (Some ("From " +:+ pretty start +:+ " to " +:+ pretty stop))
              sty st).
Proof.
  intros Hs Hrange.
  assert (Hcrop : exists c, crop_axis1 dsms (PInt start) (PInt stop) = Ok c
                            /\ shape c = [ns; 0; nk]).
  { unfold crop_axis1, slice_bound. rewrite Hs.
    destruct (Z.ltb_spec start 0); [lia |].
    destruct (Z.ltb_spec stop 0); [lia |].
    replace (Z.to_nat (Z.min stop (Z.of_nat nt))
             - Z.to_nat (Z.min start (Z.of_nat nt))) with 0 by lia.
    by eexists. }
  destruct Hcrop as (c & Hc & Hcs).
  exists {| shape := [ns; nk];
            data := flat_map (fun s => map (fun k => fmean []) (seq 0 nk))
                             (seq 0 ns) |}.
  split; [reflexivity |]. split.
  - intros s k Hlt_s Hlt_k. unfold get2, at_. simpl.
    rewrite nth_blocks with (L := nk); [| | done | done].
    + by rewrite nth_map_seq.
    + intros i. by rewrite length_map, length_seq.
  - intros i figs fig_i st Hfig.
    unfold window_body, bind, lift. simpl. rewrite Hc.
    unfold mean_axis1. rewrite Hcs. by rewrite Hfig.
Qed.

Lemma empty_window_gives_nan_witness :
  exists avg,
    shape avg = [2; 1]
    /\ get2 avg 0 0 = NaN
    /\ get2 avg 1 0 = NaN
    /\ forall st,
         window_body ex_tensor ex_info None default_style 0
                     (PList [PInt 3; PInt 1]) (Some [None]) st
         = _plot_dsms_topo avg ex_info None None (Some "From 3 to 1")
             default_style st.
Proof.
  destruct (empty_window_gives_nan ex_tensor 2 4 1 3%Z 1%Z ex_info None
              default_style eq_refl ltac:(lia))
    as (avg & Hshape & Hnan & Hbody).
  exists avg. split; [exact Hshape |].
  split; [apply Hnan; lia |]. split; [apply Hnan; lia |].
  intros st. by apply (Hbody 0 (Some [None]) None st).
Defined.

(** ** The windows of [plot_dsms_topos] and what is drawn for them *)











(** ** Windows drawn into figures of the caller *)






